(** * Verification of the vehicle-listing scraper (ws.py)

    A shallow embedding of [ws.py] and the properties of its
    extraction-and-normalisation pipeline.

    Modelling conventions.
    - A Python [str] is a [string]; its characters are the code points
      below 256.  On that range the regular-expression class [\d] is
      exactly ['0'..'9'] and [str.isspace] is the set written out in
      [isspace].
    - [int(s)] refuses, as the interpreter does by default, a numeral of
      more than 4300 digits.  [str(n)] is the mathematical conversion: the
      numbers it is given (an age, a page number, a count of blocks) stay
      within that bound, the current year being a calendar year.
    - A BeautifulSoup node is a tree of tags and text; comments and
      processing instructions, which [.text] ignores, are left out.
    - Logging, HTTP requests, sleeping and file output are events appended
      to a trace; exceptions, those of the HTML parser included, are values
      threaded through a small state-and-exception monad. *)

From Stdlib Require Import ZArith List String Ascii Bool Lia DecimalString.
Import ListNotations.
Local Open Scope string_scope.
Local Open Scope Z_scope.

(** ** Python strings *)

Module PyStr.

(** [str.isspace] on one character (code points below 256). *)
Definition isspace (c : ascii) : bool :=
  let n := nat_of_ascii c in
  ((9 <=? n) && (n <=? 13) || (28 <=? n) && (n <=? 32)
   || (n =? 133) || (n =? 160))%nat.

(** The class [\d]. *)
Definition isdecimal (c : ascii) : bool :=
  let n := nat_of_ascii c in ((48 <=? n) && (n <=? 57))%nat.

Fixpoint filter (p : ascii -> bool) (s : string) : string :=
  match s with
  | EmptyString => EmptyString
  | String c s' => if p c then String c (filter p s') else filter p s'
  end.

Fixpoint forallb (p : ascii -> bool) (s : string) : bool :=
  match s with
  | EmptyString => true
  | String c s' => p c && forallb p s'
  end.

Fixpoint existsb (p : ascii -> bool) (s : string) : bool :=
  match s with
  | EmptyString => false
  | String c s' => p c || existsb p s'
  end.

Fixpoint rev_append (s acc : string) : string :=
  match s with
  | EmptyString => acc
  | String c s' => rev_append s' (String c acc)
  end.

Definition rev (s : string) : string := rev_append s EmptyString.

(** [s.lstrip()], [s.rstrip()], [s.strip()]. *)
Fixpoint lstrip (s : string) : string :=
  match s with
  | EmptyString => EmptyString
  | String c s' => if isspace c then lstrip s' else s
  end.

Definition rstrip (s : string) : string := rev (lstrip (rev s)).

Definition strip (s : string) : string := rstrip (lstrip s).

(** [s.replace(old, new)]: the occurrences of [old] are found from left
    to right and do not overlap.  [skip] counts the characters of a
    matched occurrence that are still to be passed over. *)
Fixpoint replace_from (old new : string) (skip : nat) (s : string) : string :=
  match s with
  | EmptyString => EmptyString
  | String c s' =>
      match skip with
      | S k => replace_from old new k s'
      | O =>
          if prefix old s
          then new ++ replace_from old new (Nat.pred (String.length old)) s'
          else String c (replace_from old new O s')
      end
  end.

(** With an empty [old], Python puts [new] before every character and
    at the end. *)
Fixpoint replace_empty (new s : string) : string :=
  match s with
  | EmptyString => new
  | String c s' => new ++ String c (replace_empty new s')
  end.

Definition replace (old new s : string) : string :=
  match old with
  | EmptyString => replace_empty new s
  | String _ _ => replace_from old new O s
  end.

(** [s.split(sep, 1)] for a one-character separator: the text before
    the first [sep] and the text after it, or [s] alone. *)
Fixpoint split1 (sep : ascii) (s : string) : list string :=
  match s with
  | EmptyString => [EmptyString]
  | String c s' =>
      if Ascii.eqb c sep then [EmptyString; s']
      else match split1 sep s' with
           | [a] => [String c a]
           | a :: rest => String c a :: rest
           | [] => []
           end
  end.

(** [re.sub(r'[^\d]', '', s)]. *)
Definition re_sub_non_digits (s : string) : string := filter isdecimal s.

(** [str(n)] for an integer. *)
Definition str (n : Z) : string := NilZero.string_of_int (Z.to_int n).

Definition digit_value (c : ascii) : Z := Z.of_nat (nat_of_ascii c) - 48.

Fixpoint int_acc (acc : Z) (s : string) : Z :=
  match s with
  | EmptyString => acc
  | String c s' => int_acc (10 * acc + digit_value c) s'
  end.

(** [sys.get_int_max_str_digits()], at its default. *)
Definition int_max_str_digits : nat := 4300.

(** [int(s)] on a string of digits; [None] stands for [ValueError],
    raised on the empty string, on any other character and on a numeral
    of more than [int_max_str_digits] digits.  (Signs, underscores and
    surrounding blanks, which [int] also reads, never reach it here: its
    argument has been through [re_sub_non_digits].) *)
Definition int (s : string) : option Z :=
  match s with
  | EmptyString => None
  | String _ _ =>
      if forallb isdecimal s && (String.length s <=? int_max_str_digits)%nat
      then Some (int_acc 0 s)
      else None
  end.

Fixpoint join (sep : string) (l : list string) : string :=
  match l with
  | [] => EmptyString
  | [a] => a
  | a :: l' => a ++ sep ++ join sep l'
  end.

End PyStr.

(** ** The document tree *)

Module Soup.

(** A node of a parsed page: a run of text, or a tag with its name, the
    values of its [class] attribute and its children. *)
#[local] Unset Elimination Schemes.
Inductive node : Type :=
| NavigableString (s : string)
| Tag (name : string) (class_ : list string) (contents : list node).
#[local] Set Elimination Schemes.

(** [node.text]: the text of every string below the node, in document
    order. *)
Fixpoint text (n : node) : string :=
  match n with
  | NavigableString s => s
  | Tag _ _ cs => String.concat "" (map text cs)
  end.

(** [node.descendants]: everything below the node, parents before
    children, in document order. *)
Fixpoint descendants (n : node) : list node :=
  match n with
  | NavigableString _ => []
  | Tag _ _ cs => flat_map (fun c => c :: descendants c) cs
  end.

(** The [class_=] filter: one of the tag's classes is the wanted value,
    or the whole attribute, joined by blanks, is. *)
Definition class_matches (class_ : list string) (wanted : string) : bool :=
  List.existsb (String.eqb wanted) class_
  || String.eqb (PyStr.join " " class_) wanted.

Definition matches (name : string) (wanted : option string) (n : node) : bool :=
  match n with
  | NavigableString _ => false
  | Tag t class_ _ =>
      String.eqb t name
      && match wanted with
         | None => true
         | Some w => class_matches class_ w
         end
  end.

(** [node.find_all(name, class_=wanted)] and [node.find(...)]. *)
Definition find_all (name : string) (wanted : option string) (n : node) : list node :=
  List.filter (matches name wanted) (descendants n).

Definition find (name : string) (wanted : option string) (n : node) : option node :=
  hd_error (find_all name wanted n).

End Soup.

Import Soup.

(** ** Records *)

(** The unknown marker. *)
Definition NA : string := "N/A".

(** The dictionary built by [extract_car_details]; one field per key. *)
Record raw_record : Type := mk_raw {
  Nom_Total : string;
  Marque : string;
  Modele : string;
  Carburant : string;
  Boite : string;
  Prix : string;
  Kilometrage : string;
  Annee : string
}.

(** The dictionary built by [clean_and_format_data]. *)
Record cleaned_record : Type := mk_cleaned {
  c_Nom_Total : string;
  c_Marque : string;
  c_Modele : string;
  c_Annee : string;
  c_Age : string;
  c_Kilometrage : string;
  c_Carburant : string;
  c_Boite : string;
  c_Prix : string
}.

(** ** extract_car_details *)

(** [elem.text.strip() if elem else 'N/A'], followed by the clean-up
    [post] that the price and the mileage apply to the stripped text.  A
    tag is always true in a test, whatever it holds. *)
Definition text_or_NA (elem : option node) (post : string -> string) : string :=
  match elem with
  | Some e => post (PyStr.strip (text e))
  | None => NA
  end.

(** No further clean-up: the year, the fuel and the transmission. *)
Definition same (s : string) : string := s.

(** No operation of the body raises on a tree, so the handler that logs
    and returns [None] is never entered and the function is pure. *)
Definition extract_car_details (car_div : node) : option raw_record :=
  let car_name := text_or_NA (find "h3" (Some "lib-car") car_div) same in
  let name_parts := PyStr.split1 " " car_name in
  let brand := hd EmptyString name_parts in
  let model := match name_parts with
               | _ :: m :: _ => m
               | _ => NA
               end in
  let price := text_or_NA (find "div" (Some "price") car_div)
                 (fun s => PyStr.replace "DT" "" (PyStr.replace " " "" s)) in
  match find_all "div" (Some "options") car_div with
  | [] => None
  | options0 :: _ =>
      match find_all "div" None options0 with
      | d0 :: d1 :: d2 :: d3 :: _ =>
          let year := text_or_NA (find "span" None d0) same in
          let kilometers := text_or_NA (find "span" None d1)
                 (fun s => PyStr.replace " " "" (PyStr.replace " Km" "" s)) in
          let fuel_type := text_or_NA (find "span" None d2) same in
          let transmission := text_or_NA (find "span" None d3) same in
          Some {| Nom_Total := car_name;
                  Marque := brand;
                  Modele := model;
                  Carburant := fuel_type;
                  Boite := transmission;
                  Prix := price;
                  Kilometrage := kilometers;
                  Annee := year |}
      | _ => None
      end
  end.

(** ** clean_and_format_data *)

(** [re.sub(r'[^\d]', '', v) if v != 'N/A' else 'N/A'], the expression
    applied to the year, the mileage and the price. *)
Definition digits_or_NA (v : string) : string :=
  if String.eqb v NA then NA else PyStr.re_sub_non_digits v.

(** The age: ['N/A'] unless the cleaned year is not the marker and
    [int] accepts it. *)
Definition age_of (current_year : Z) (year : string) : string :=
  if String.eqb year NA then NA
  else match PyStr.int year with
       | Some y => PyStr.str (current_year - y)
       | None => NA
       end.

(** The body of the loop for one record. *)
Definition clean_car (current_year : Z) (car : raw_record) : cleaned_record :=
  let year := digits_or_NA (Annee car) in
  let age := age_of current_year year in
  {| c_Nom_Total := Nom_Total car;
     c_Marque := Marque car;
     c_Modele := Modele car;
     c_Annee := year;
     c_Age := age;
     c_Kilometrage := digits_or_NA (Kilometrage car);
     c_Carburant := Carburant car;
     c_Boite := Boite car;
     c_Prix := digits_or_NA (Prix car) |}.

(** The loop over [cars]; an entry that is [None] is passed over.
    [current_year] is the value [datetime.now().year] has at the call. *)
Fixpoint clean_and_format_data (current_year : Z) (cars : list (option raw_record))
  : list cleaned_record :=
  match cars with
  | [] => []
  | None :: rest => clean_and_format_data current_year rest
  | Some car :: rest => clean_car current_year car :: clean_and_format_data current_year rest
  end.

(** ** Effects *)

Inductive level : Type := INFO | WARNING | ERROR.

(** What the program does to the outside, in the order it does it. *)
Inductive event : Type :=
| Log (lv : level) (msg : string)
| Get (url : string) (verify : bool) (timeout : Z)
| Sleep (seconds : Z)
| Open (filename : string)
| WriteRow (cells : list string)
| Close (filename : string).

(** The classes of exception that matter to the handlers:
    [requests.RequestException], [IOError], and what the HTML parser
    raises on markup it rejects, which is neither. *)
Inductive exn_class : Type := RequestException | IOError | ParserException.

Record exn : Type := mk_exn { exn_kind : exn_class; exn_msg : string }.

Definition exn_class_eqb (a b : exn_class) : bool :=
  match a, b with
  | RequestException, RequestException => true
  | IOError, IOError => true
  | ParserException, ParserException => true
  | _, _ => false
  end.

(** A computation over local state [St]: the events it emits, the state
    it leaves, and an exception or a value.  State changes made before an
    exception are kept, as mutation is in Python. *)
Definition M (St A : Type) : Type := St -> list event * St * (exn + A).

Section Monad.
Context {St : Type}.

Definition ret {A} (a : A) : M St A := fun st => ([], st, inr a).

Definition bind {A B} (m : M St A) (k : A -> M St B) : M St B :=
  fun st =>
    match m st with
    | (tr, st1, inl e) => (tr, st1, inl e)
    | (tr, st1, inr a) =>
        match k a st1 with
        | (tr', st2, r) => ((tr ++ tr')%list, st2, r)
        end
    end.

Definition raise {A} (e : exn) : M St A := fun st => ([], st, inl e).

Definition emit (ev : event) : M St unit := fun st => ([ev], st, inr tt).

Definition modify (f : St -> St) : M St unit := fun st => ([], f st, inr tt).

(** [try: body  except cls as e: handler e]. *)
Definition try_except {A} (body : M St A) (cls : exn_class)
    (handler : exn -> M St A) : M St A :=
  fun st =>
    match body st with
    | (tr, st1, inl e) =>
        if exn_class_eqb (exn_kind e) cls
        then match handler e st1 with
             | (tr', st2, r) => ((tr ++ tr')%list, st2, r)
             end
        else (tr, st1, inl e)
    | done => done
    end.

Definition logging_info (msg : string) : M St unit := emit (Log INFO msg).
Definition logging_warning (msg : string) : M St unit := emit (Log WARNING msg).
Definition logging_error (msg : string) : M St unit := emit (Log ERROR msg).
Definition time_sleep (seconds : Z) : M St unit := emit (Sleep seconds).

End Monad.

Declare Scope py_scope.
Delimit Scope py_scope with py.
Notation "x <- m ;; k" := (bind m (fun x => k))
  (at level 61, m at next level, right associativity) : py_scope.
Notation "m ;; k" := (bind m (fun _ => k))
  (at level 61, right associativity) : py_scope.
Local Open Scope py_scope.

(** ** The outside world *)

(** What [requests.get] returns. *)
Record response : Type := mk_response {
  status_code : Z;
  reason : string;
  resp_url : string;
  resp_text : string
}.

(** The collaborators of a run: the transport ([inl msg] is a
    [RequestException] raised by [requests.get]), the HTML parser
    ([inl msg] is the exception it raises on markup it rejects, such as
    an unknown marked section), the file system ([Some msg] is the
    [IOError] raised when the file cannot be opened) and the clock. *)
Record world : Type := mk_world {
  requests_get : string -> string + response;
  html_parser : string -> string + node;
  open_error : string -> option string;
  now_year : Z
}.

Section Run.
Variable w : world.

(** ** scrape_car_listings *)

Definition get {St} (url : string) : M St response :=
  emit (Get url false 10) ;;
  match requests_get w url with
  | inl msg => raise (mk_exn RequestException msg)
  | inr r => ret r
  end.

(** [response.raise_for_status()]. *)
Definition raise_for_status {St} (r : response) : M St unit :=
  if (400 <=? status_code r) && (status_code r <? 500)
  then raise (mk_exn RequestException
         (PyStr.str (status_code r) ++ " Client Error: " ++ reason r
          ++ " for url: " ++ resp_url r))
  else if (500 <=? status_code r) && (status_code r <? 600)
  then raise (mk_exn RequestException
         (PyStr.str (status_code r) ++ " Server Error: " ++ reason r
          ++ " for url: " ++ resp_url r))
  else ret tt.

(** [BeautifulSoup(markup, 'html.parser')]. *)
Definition BeautifulSoup {St} (markup : string) : M St node :=
  match html_parser w markup with
  | inl msg => raise (mk_exn ParserException msg)
  | inr soup => ret soup
  end.

Definition listing_class : string := "box-product listing-item effect-item h-100".

(** The inner loop: every block that yields a record appends it to
    [all_cars], the local state. *)
Fixpoint for_car_divs (car_divs : list node) : M (list raw_record) unit :=
  match car_divs with
  | [] => ret tt
  | car_div :: rest =>
      match extract_car_details car_div with
      | Some car_details => modify (fun all_cars => (all_cars ++ [car_details])%list)
      | None => ret tt
      end ;;
      for_car_divs rest
  end.

Definition page_url (base_url : string) (page : Z) : string :=
  base_url ++ "&page=" ++ PyStr.str page.

(** The body of the outer loop for one page number.  The handler takes
    the exceptions of the request and of the status check; one raised by
    the parser passes through it. *)
Definition scrape_page (base_url : string) (page : Z) : M (list raw_record) unit :=
  let url := page_url base_url page in
  try_except
    (response <- get url ;;
     raise_for_status response ;;
     soup <- BeautifulSoup (resp_text response) ;;
     let car_divs := find_all "div" (Some listing_class) soup in
     for_car_divs car_divs ;;
     logging_info ("Scraped page " ++ PyStr.str page ++ ": "
                   ++ PyStr.str (Z.of_nat (List.length car_divs)) ++ " cars found") ;;
     time_sleep 1)
    RequestException
    (fun e => logging_error ("Error scraping page " ++ PyStr.str page ++ ": " ++ exn_msg e)).

Fixpoint for_pages (base_url : string) (pages : list Z) : M (list raw_record) unit :=
  match pages with
  | [] => ret tt
  | page :: rest => scrape_page base_url page ;; for_pages base_url rest
  end.

(** [range(lo, hi)]. *)
Definition range (lo hi : Z) : list Z :=
  map (fun i => lo + Z.of_nat i) (seq 0 (Z.to_nat (hi - lo))).

(** The trace of the walk, and the exception that leaves it or the list
    it returns. *)
Definition scrape_car_listings (base_url : string) (max_pages : Z)
  : list event * (exn + list raw_record) :=
  match for_pages base_url (range 1 (max_pages + 1)) [] with
  | (tr, _, inl e) => (tr, inl e)
  | (tr, all_cars, inr _) => (tr, inr all_cars)
  end.

(** ** save_to_csv *)

Definition fieldnames : list string :=
  ["Nom Total"; "Marque"; "Modele"; "Annee"; "Age (Years)";
   "Kilometrage (Km)"; "Carburant"; "Boite"; "Prix (DT)"].

(** The cells [DictWriter] writes for one record: its values in the
    order of [fieldnames]. *)
Definition row (car : cleaned_record) : list string :=
  [c_Nom_Total car; c_Marque car; c_Modele car; c_Annee car; c_Age car;
   c_Kilometrage car; c_Carburant car; c_Boite car; c_Prix car].

Definition open_ (filename : string) : M unit unit :=
  emit (Open filename) ;;
  match open_error w filename with
  | Some msg => raise (mk_exn IOError msg)
  | None => ret tt
  end.

Fixpoint write_rows (cars : list cleaned_record) : M unit unit :=
  match cars with
  | [] => ret tt
  | car :: rest => emit (WriteRow (row car)) ;; write_rows rest
  end.

Definition save_to_csv (cars : list (option raw_record)) (filename : string)
  : M unit unit :=
  match cars with
  | [] => logging_warning "No data to save"
  | _ :: _ =>
      let cleaned_cars := clean_and_format_data (now_year w) cars in
      try_except
        (open_ filename ;;
         emit (WriteRow fieldnames) ;;
         write_rows cleaned_cars ;;
         emit (Close filename) ;;
         logging_info ("Data saved to " ++ filename))
        IOError
        (fun e => logging_error ("Error saving CSV: " ++ exn_msg e))
  end.

End Run.

(** ** Vocabulary of the statements *)

(** A record whose year, mileage and price texts hold no digit. *)
Definition raw_abc : raw_record :=
  {| Nom_Total := "Fiat Punto"; Marque := "Fiat"; Modele := "Punto";
     Carburant := "Essence"; Boite := "Manuelle";
     Prix := "sur demande"; Kilometrage := "n.c."; Annee := "abc" |}.

(** The records that are not [None], in order. *)
Fixpoint kept (cars : list (option raw_record)) : list raw_record :=
  match cars with
  | [] => []
  | None :: rest => kept rest
  | Some car :: rest => car :: kept rest
  end.

(** A listing card with the usual layout: a title, a price, and an
    options container whose sub-sections each hold one label. *)
Definition option_div (label : string) : node :=
  Tag "div" ["col"] [Tag "span" [] [NavigableString label]].

Definition card (title price : string) (labels : list string) : node :=
  Tag "div" ["box-product"; "listing-item"; "effect-item"; "h-100"]
    [Tag "h3" ["lib-car"] [NavigableString title];
     Tag "div" ["price"] [NavigableString price];
     Tag "div" ["options"] (map option_div labels)].

(** The same card with no options container. *)
Definition card_without_options (title price : string) : node :=
  Tag "div" ["box-product"; "listing-item"; "effect-item"; "h-100"]
    [Tag "h3" ["lib-car"] [NavigableString title];
     Tag "div" ["price"] [NavigableString price]].

(** The sub-sections of an options container are the [div]s below it. *)
Definition sub_sections (options0 : node) : list node := find_all "div" None options0.

(** The block has no options container, or its first one holds fewer than
    four sub-sections. *)
Definition options_missing_or_short (car_div : node) : Prop :=
  match find_all "div" (Some "options") car_div with
  | [] => True
  | options0 :: _ => (List.length (sub_sections options0) < 4)%nat
  end.

Definition is_blank (c : ascii) : bool := Ascii.eqb c " ".

(** The specification's wording of the name split: the first token
    delimited by whitespace of any kind, and what follows it. *)
Fixpoint spec_first_token (s : string) : string :=
  match s with
  | EmptyString => EmptyString
  | String c s' => if PyStr.isspace c then EmptyString else String c (spec_first_token s')
  end.

Fixpoint spec_after_token (s : string) : string :=
  match s with
  | EmptyString => EmptyString
  | String c s' => if PyStr.isspace c then PyStr.lstrip s else spec_after_token s'
  end.

Definition spec_model (s : string) : string :=
  match spec_after_token s with
  | EmptyString => NA
  | rest => rest
  end.

(** A title whose two words are separated by a tab. *)
Definition tabbed_title : string := "Toyota" ++ String "009" "Corolla".

(** The specification's worked example: the raw record, the cleaned
    record and a card that carries them. *)
Definition toyota_raw : raw_record :=
  {| Nom_Total := "Toyota Corolla"; Marque := "Toyota"; Modele := "Corolla";
     Carburant := "Diesel"; Boite := "Automatique"; Prix := "45000";
     Kilometrage := "80000"; Annee := "2015" |}.

Definition toyota_cleaned (current_year : Z) : cleaned_record :=
  {| c_Nom_Total := "Toyota Corolla"; c_Marque := "Toyota"; c_Modele := "Corolla";
     c_Annee := "2015"; c_Age := PyStr.str (current_year - 2015);
     c_Kilometrage := "80000"; c_Carburant := "Diesel";
     c_Boite := "Automatique"; c_Prix := "45000" |}.

Definition toyota_card : node :=
  card "Toyota Corolla" "45 000 DT" ["2015"; "80 000 Km"; "Diesel"; "Automatique"].

(** The URLs requested in a trace, and the pauses taken. *)
Definition fetched (tr : list event) : list string :=
  flat_map (fun ev => match ev with Get url _ _ => [url] | _ => [] end) tr.

Definition pauses (tr : list event) : list Z :=
  flat_map (fun ev => match ev with Sleep s => [s] | _ => [] end) tr.

(** The fetch of [url] fails: the request raises, or the status it
    returns is one that [raise_for_status] rejects. *)
Definition fetch_fails (w : world) (url : string) : bool :=
  match requests_get w url with
  | inl _ => true
  | inr r => (400 <=? status_code r) && (status_code r <? 600)
  end.

(** Some worlds to run the program in. *)

Definition empty_page : node := Tag "[document]" [] [].

(** Every request times out. *)
Definition offline : world :=
  {| requests_get := fun _ => inl "timed out";
     html_parser := fun _ => inr empty_page;
     open_error := fun _ => None;
     now_year := 2026 |}.

(** Every request is answered, and every page shows the same card. *)
Definition one_card_per_page : world :=
  {| requests_get := fun url =>
       inr {| status_code := 200; reason := "OK"; resp_url := url; resp_text := "<html>" |};
     html_parser := fun _ => inr (Tag "[document]" [] [toyota_card]);
     open_error := fun _ => None;
     now_year := 2026 |}.

(** Page 1 is refused by the server, the others are answered. *)
Definition first_page_refused : world :=
  {| requests_get := fun url =>
       if String.eqb url "https://cars.example/search?q=1&page=1"
       then inr {| status_code := 503; reason := "Service Unavailable";
                   resp_url := url; resp_text := "" |}
       else inr {| status_code := 200; reason := "OK"; resp_url := url;
                   resp_text := "<html>" |};
     html_parser := fun _ => inr (Tag "[document]" [] [toyota_card]);
     open_error := fun _ => None;
     now_year := 2026 |}.

(** The events that reach the sink, and the error lines. *)
Definition touches_sink (ev : event) : bool :=
  match ev with
  | Open _ | WriteRow _ | Close _ => true
  | _ => false
  end.

Definition is_error_line (ev : event) : bool :=
  match ev with
  | Log ERROR _ => true
  | _ => false
  end.

(** ** setup_logging and main *)

(** The settings of the root logger; [None] while it has no handler. *)
Record log_config : Type := mk_log_config {
  cfg_level : level;
  cfg_format : string;
  cfg_datefmt : string
}.

(** [logging.basicConfig(level=..., format=..., datefmt=...)]: it installs
    the settings unless the root logger is configured already. *)
Definition setup_logging : M (option log_config) unit :=
  modify (fun root =>
            match root with
            | Some cfg => Some cfg
            | None => Some {| cfg_level := INFO;
                              cfg_format := "%(asctime)s - %(levelname)s: %(message)s";
                              cfg_datefmt := "%Y-%m-%d %H:%M:%S" |}
            end).

(** A call whose local state is its own: the caller's state is kept. *)
Definition call {St A} (r : list event * (exn + A)) : M St A :=
  fun st => (fst r, st, snd r).

Definition call_unit {St A} (m : M unit A) : M St A :=
  fun st => match m tt with (tr, _, r) => (tr, st, r) end.

(** [try: body  except Exception as e: handler e]: every class is caught. *)
Definition try_except_Exception {St A} (body : M St A) (handler : exn -> M St A)
  : M St A :=
  fun st =>
    match body st with
    | (tr, st1, inl e) =>
        match handler e st1 with
        | (tr', st2, r) => ((tr ++ tr')%list, st2, r)
        end
    | done => done
    end.

(** The search address that [main] walks. *)
Definition main_base_url : string :=
  "https://www.sparkauto.tn/search-listing-result?_token=7qsMKlo8lUhwljXZuE3HBEoNTxz09039s95qQ76P&listing_min_model_year=2%E2%80%AF010&listing_max_model_year=2%E2%80%AF023&listing_price_min=28%E2%80%AF000&listing_price_max=460%E2%80%AF000&listing_mileage_min=11%E2%80%AF500&listing_mileage_max=228%E2%80%AF000".

(** The default values of [max_pages] and [filename]. *)
Definition default_max_pages : Z := 5.
Definition default_filename : string := "car_listings.csv".

Definition main (w : world) : M (option log_config) unit :=
  setup_logging ;;
  try_except_Exception
    (car_listings <- call (scrape_car_listings w main_base_url default_max_pages) ;;
     call_unit (save_to_csv w (map Some car_listings) default_filename) ;;
     logging_info ("Total cars scraped: "
                   ++ PyStr.str (Z.of_nat (List.length car_listings))))
    (fun e => logging_error ("Unexpected error in main process: " ++ exn_msg e)).

(** ** Vocabulary of the further statements *)

(** The records that the page numbered [page] contributes to a walk:
    those of its listing blocks, when its fetch succeeds. *)
Definition page_records (w : world) (base_url : string) (page : Z) : list raw_record :=
  match requests_get w (page_url base_url page) with
  | inl _ => []
  | inr r =>
      if (400 <=? status_code r) && (status_code r <? 600) then []
      else match html_parser w (resp_text r) with
           | inl _ => []
           | inr soup =>
               kept (map extract_car_details (find_all "div" (Some listing_class) soup))
           end
  end.

(** The message of the exception that the parser raises on the body
    fetched from [url]; [None] when the fetch fails, so that the parser is
    not called, and when the parser accepts the body. *)
Definition parser_error (w : world) (url : string) : option string :=
  match requests_get w url with
  | inl _ => None
  | inr r =>
      if (400 <=? status_code r) && (status_code r <? 600) then None
      else match html_parser w (resp_text r) with
           | inl msg => Some msg
           | inr _ => None
           end
  end.

(** Every page is answered, but the body of page 2 holds a marked section
    that the parser rejects. *)
Definition second_page_rejected : world :=
  {| requests_get := fun url =>
       inr {| status_code := 200; reason := "OK"; resp_url := url;
              resp_text := if String.eqb url "u&page=2" then "<![x]>" else "<html>" |};
     html_parser := fun markup =>
       if String.eqb markup "<![x]>"
       then inl "unknown status keyword 'x' in marked section"
       else inr (Tag "[document]" [] [toyota_card]);
     open_error := fun _ => None;
     now_year := 2026 |}.

(** The same for page 3 of the address that [main] walks. *)
Definition third_page_rejected : world :=
  {| requests_get := fun url =>
       inr {| status_code := 200; reason := "OK"; resp_url := url;
              resp_text := if String.eqb url (main_base_url ++ "&page=3")
                           then "<![x]>" else "<html>" |};
     html_parser := html_parser second_page_rejected;
     open_error := fun _ => None;
     now_year := 2026 |}.

(** A record whose year text is a run of 4301 digits. *)
Definition raw_long_year : raw_record :=
  {| Nom_Total := "Seat Ibiza"; Marque := "Seat"; Modele := "Ibiza";
     Carburant := "Essence"; Boite := "Manuelle";
     Prix := "39000"; Kilometrage := "98000";
     Annee := string_of_list_ascii (List.repeat "1"%char 4301) |}.

Definition is_info_line (ev : event) : bool :=
  match ev with
  | Log INFO _ => true
  | _ => false
  end.


(** The pages of a list whose fetch succeeds, and those whose fetch fails. *)
Definition good_pages (w : world) (base_url : string) (pages : list Z) : list Z :=
  List.filter (fun page => negb (fetch_fails w (page_url base_url page))) pages.

Definition failed_pages (w : world) (base_url : string) (pages : list Z) : list Z :=
  List.filter (fun page => fetch_fails w (page_url base_url page)) pages.

(** A world whose disk refuses the output file. *)
Definition read_only_disk : world :=
  {| requests_get := requests_get one_card_per_page;
     html_parser := html_parser one_card_per_page;
     open_error := fun _ => Some "[Errno 13] Permission denied: 'car_listings.csv'";
     now_year := 2026 |}.

(** A record whose year text carries more than the year. *)
Definition raw_mixed_year : raw_record :=
  {| Nom_Total := "Seat Ibiza"; Marque := "Seat"; Modele := "Ibiza";
     Carburant := "Essence"; Boite := "Manuelle";
     Prix := "39000"; Kilometrage := "98000"; Annee := "06/2018" |}.

Definition not_digit (c : ascii) : bool := negb (PyStr.isdecimal c).

Definition not_blank (c : ascii) : bool := negb (is_blank c).

(** The first [k] characters of [s] satisfy [p] (all of them when [s] is
    shorter). *)
Fixpoint leading (p : ascii -> bool) (k : nat) (s : string) : bool :=
  match k, s with
  | O, _ => true
  | S _, EmptyString => true
  | S k', String c s' => p c && leading p k' s'
  end.

(** A card with surrounding blanks and line breaks in its texts, and a
    card that lacks its title, its price and the labels of its
    sub-sections. *)
Definition untidy_card : node :=
  card (String "010" "  Peugeot 208 Allure ") " 52 500 DT " [" 2019 "; "45 000 Km"; "Essence"; "Manuelle"].

Definition bare_card : node :=
  Tag "div" ["box-product"; "listing-item"; "effect-item"; "h-100"]
    [Tag "div" ["options"] [Tag "div" [] []; Tag "div" [] []; Tag "div" [] []; Tag "div" [] []]].

(** * Properties *)

(** ** Python strings, by example *)

Example strip_ex : PyStr.strip "  45 000 DT
 " = "45 000 DT".
Proof. reflexivity. Qed.

Example replace_ex1 : PyStr.replace "DT" "" (PyStr.replace " " "" "45 000 DT") = "45000".
Proof. reflexivity. Qed.

Example replace_ex2 : PyStr.replace "aa" "b" "aaaaa" = "bba".
Proof. reflexivity. Qed.

Example split1_ex1 : PyStr.split1 " " "Alfa Romeo Giulia" = ["Alfa"; "Romeo Giulia"].
Proof. reflexivity. Qed.

Example split1_ex2 : PyStr.split1 " " "Clio" = ["Clio"].
Proof. reflexivity. Qed.

Example str_ex : PyStr.str (2026 - 2015) = "11" /\ PyStr.str (-3) = "-3" /\ PyStr.str 0 = "0".
Proof. repeat split; reflexivity. Qed.

Example int_ex : PyStr.int "2015" = Some 2015 /\ PyStr.int "" = None /\ PyStr.int "0090" = Some 90.
Proof. repeat split; reflexivity. Qed.

(** ** The numeric scrub *)

Section Scrub.
Import PyStr.

Lemma filter_keeps (p : ascii -> bool) (s : string) :
  forallb p (filter p s) = true.
Proof.
  induction s as [|c s IH]; simpl; [reflexivity|].
  destruct (p c) eqn:E; simpl; [rewrite E|]; exact IH.
Qed.

Lemma filter_fixed (p : ascii -> bool) (s : string) :
  forallb p s = true -> filter p s = s.
Proof.
  induction s as [|c s IH]; simpl; [reflexivity|].
  intros H. apply andb_true_iff in H. destruct H as [Hc Hs].
  rewrite Hc, (IH Hs). reflexivity.
Qed.

Lemma filter_empty (p : ascii -> bool) (s : string) :
  filter p s = EmptyString <-> existsb p s = false.
Proof.
  induction s as [|c s IH]; simpl; [tauto|].
  destruct (p c); simpl; [split; discriminate | exact IH].
Qed.

(** A string of digits is not the unknown marker. *)
Lemma digits_not_NA (s : string) :
  forallb isdecimal s = true -> String.eqb s NA = false.
Proof.
  intros H. apply String.eqb_neq. intros ->. discriminate H.
Qed.

Lemma digits_or_NA_cases (v : string) :
  (v = NA /\ digits_or_NA v = NA)
  \/ (v <> NA /\ digits_or_NA v = re_sub_non_digits v).
Proof.
  unfold digits_or_NA. destruct (String.eqb v NA) eqn:E.
  - left. apply String.eqb_eq in E. auto.
  - right. apply String.eqb_neq in E. auto.
Qed.

Lemma digits_or_NA_twice (v : string) :
  digits_or_NA (digits_or_NA v) = digits_or_NA v.
Proof.
  destruct (digits_or_NA_cases v) as [[-> _]|[_ E]]; [reflexivity|].
  rewrite E. unfold re_sub_non_digits, digits_or_NA.
  rewrite (digits_not_NA _ (filter_keeps isdecimal v)).
  apply filter_fixed, filter_keeps.
Qed.

Lemma age_of_empty (y : Z) : age_of y EmptyString = NA.
Proof. reflexivity. Qed.

Lemma age_of_NA (y : Z) : age_of y NA = NA.
Proof. reflexivity. Qed.

End Scrub.

(** C9.  A string made of digits only goes through the scrub unchanged,
    both through the bare substitution and through the guarded expression
    that rewrites the year, mileage and price fields. *)
Theorem scrub_fixes_digit_strings (s : string) :
  PyStr.forallb PyStr.isdecimal s = true ->
  PyStr.re_sub_non_digits s = s /\ digits_or_NA s = s.
Proof.
  intros H. split.
  - apply filter_fixed, H.
  - unfold digits_or_NA. rewrite (digits_not_NA s H). apply filter_fixed, H.
Qed.

Lemma scrub_fixes_digit_strings_witness :
  PyStr.forallb PyStr.isdecimal "80000" = true
  /\ PyStr.re_sub_non_digits "80000" = "80000" /\ digits_or_NA "80000" = "80000".
Proof.
  split; [reflexivity | apply (scrub_fixes_digit_strings "80000"); reflexivity].
Defined.

(** C4 as stated: a year, mileage or price that is the marker or scrubs
    to nothing comes out as the marker.  It fails on a field such as
    ["abc"]: the result is the empty string. *)
Lemma scrub_to_empty_not_marker :
  ~ (forall (y : Z) (r : raw_record),
        (Annee r = NA \/ PyStr.re_sub_non_digits (Annee r) = EmptyString ->
         c_Annee (clean_car y r) = NA)
        /\ (Kilometrage r = NA \/ PyStr.re_sub_non_digits (Kilometrage r) = EmptyString ->
            c_Kilometrage (clean_car y r) = NA)
        /\ (Prix r = NA \/ PyStr.re_sub_non_digits (Prix r) = EmptyString ->
            c_Prix (clean_car y r) = NA)).
Proof.
  intros H. destruct (H 2024 raw_abc) as [Hy _].
  assert (E : c_Annee (clean_car 2024 raw_abc) = EmptyString) by reflexivity.
  rewrite E in Hy. discriminate Hy. right. reflexivity.
Qed.

(** C4, amended.  Normalisation is total; each of the year, mileage and
    price fields comes out as the marker when its text was the marker and
    otherwise as its text with every non-digit character removed, which is
    the empty string exactly when the text holds no digit. *)
Theorem numeric_fields_scrubbed (y : Z) (r : raw_record) :
  let c := clean_car y r in
  clean_and_format_data y [Some r] = [c]
  /\ Forall (fun p : string * string =>
       let (v, out) := p in
       (v = NA -> out = NA)
       /\ (v <> NA -> out = PyStr.filter PyStr.isdecimal v
                      /\ PyStr.forallb PyStr.isdecimal out = true
                      /\ (out = EmptyString <-> PyStr.existsb PyStr.isdecimal v = false)))
     [(Annee r, c_Annee c); (Kilometrage r, c_Kilometrage c); (Prix r, c_Prix c)].
Proof.
  simpl. split; [reflexivity|].
  assert (G : forall v, (v = NA -> digits_or_NA v = NA)
       /\ (v <> NA -> digits_or_NA v = PyStr.filter PyStr.isdecimal v
            /\ PyStr.forallb PyStr.isdecimal (digits_or_NA v) = true
            /\ (digits_or_NA v = EmptyString <-> PyStr.existsb PyStr.isdecimal v = false))).
  { intros v. destruct (digits_or_NA_cases v) as [[E1 E2]|[E1 E2]].
    - split; [auto | contradiction].
    - split; [contradiction|]. intros _. rewrite E2. unfold PyStr.re_sub_non_digits.
      repeat split; try apply filter_keeps; apply filter_empty. }
  repeat (apply Forall_cons; [exact (G _)|]). apply Forall_nil.
Qed.

(** C6.  A year text that scrubs to the empty string, or holds no digit
    (the marker itself included), gives the marker as age; normalisation
    returns its record. *)
Theorem age_unknown_without_digits (y : Z) (r : raw_record) :
  PyStr.re_sub_non_digits (Annee r) = EmptyString
  \/ PyStr.existsb PyStr.isdecimal (Annee r) = false ->
  exists c, clean_and_format_data y [Some r] = [c] /\ c_Age c = NA.
Proof.
  intros H. exists (clean_car y r). split; [reflexivity|].
  assert (E : PyStr.re_sub_non_digits (Annee r) = EmptyString).
  { destruct H as [H|H]; [exact H | apply filter_empty, H]. }
  simpl. destruct (digits_or_NA_cases (Annee r)) as [[_ E2]|[_ E2]]; rewrite E2.
  - apply age_of_NA.
  - rewrite E. apply age_of_empty.
Qed.

Lemma age_unknown_without_digits_witness :
  exists c, clean_and_format_data 2024 [Some raw_abc] = [c] /\ c_Age c = NA.
Proof.
  apply (age_unknown_without_digits 2024 raw_abc). left. reflexivity.
Defined.

(** C10.  Normalisation keeps the records that are present, in order, and
    in each of them copies the full name, brand, model, fuel and
    transmission unchanged; the year, mileage and price are the scrubbed
    texts and the age is computed from the cleaned year. *)
Theorem normalisation_frame (y : Z) (cars : list (option raw_record)) :
  Forall2 (fun (r : raw_record) (c : cleaned_record) =>
             c_Nom_Total c = Nom_Total r /\ c_Marque c = Marque r
             /\ c_Modele c = Modele r /\ c_Carburant c = Carburant r
             /\ c_Boite c = Boite r
             /\ c_Annee c = digits_or_NA (Annee r)
             /\ c_Kilometrage c = digits_or_NA (Kilometrage r)
             /\ c_Prix c = digits_or_NA (Prix r)
             /\ c_Age c = age_of y (c_Annee c))
          (kept cars) (clean_and_format_data y cars).
Proof.
  induction cars as [|[car|] rest IH]; simpl.
  - constructor.
  - constructor; [|exact IH]. repeat split.
  - exact IH.
Qed.

(** ** Extraction *)

Example extract_card :
  extract_car_details (card " Renault Clio 4 " "32 500 DT" ["2017"; "120 000 Km"; "Essence"; "Manuelle"])
  = Some {| Nom_Total := "Renault Clio 4"; Marque := "Renault"; Modele := "Clio 4";
            Carburant := "Essence"; Boite := "Manuelle"; Prix := "32500";
            Kilometrage := "120000"; Annee := "2017" |}.
Proof. reflexivity. Qed.

(** C1.  A block without an options container, or whose options container
    holds fewer than four sub-sections, yields no record. *)
Theorem extract_skips_incomplete_options (car_div : node) :
  options_missing_or_short car_div -> extract_car_details car_div = None.
Proof.
  unfold options_missing_or_short, sub_sections, extract_car_details.
  destruct (find_all "div" (Some "options") car_div) as [|options0 rest].
  - reflexivity.
  - destruct (find_all "div" None options0) as [|d0 [|d1 [|d2 [|d3 ds]]]];
      simpl; intros H; try reflexivity; lia.
Qed.

Lemma extract_skips_incomplete_options_witness :
  extract_car_details (card_without_options "Kia Rio" "41 000 DT") = None
  /\ extract_car_details (card "Kia Rio" "41 000 DT" ["2019"; "60 000 Km"; "Essence"]) = None.
Proof.
  split.
  - apply (extract_skips_incomplete_options (card_without_options "Kia Rio" "41 000 DT")).
    exact I.
  - apply (extract_skips_incomplete_options
             (card "Kia Rio" "41 000 DT" ["2019"; "60 000 Km"; "Essence"])).
    unfold options_missing_or_short. simpl. lia.
Defined.

(** Conversely a record is returned whenever four sub-sections are there. *)
Lemma extract_some_iff (car_div : node) :
  (exists r, extract_car_details car_div = Some r) <-> ~ options_missing_or_short car_div.
Proof.
  unfold options_missing_or_short, sub_sections, extract_car_details.
  destruct (find_all "div" (Some "options") car_div) as [|options0 rest].
  - split; [intros [r H]; discriminate H | intros H; now elim H].
  - destruct (find_all "div" None options0) as [|d0 [|d1 [|d2 [|d3 ds]]]]; simpl;
      (split; [intros [r H]; try discriminate H; lia | intros H; try (elim H; lia)]).
    eexists. reflexivity.
Qed.

(** How the name is cut, whatever the block. *)
Lemma extract_name_parts (car_div : node) (r : raw_record) :
  extract_car_details car_div = Some r ->
  Marque r = hd EmptyString (PyStr.split1 " " (Nom_Total r))
  /\ Modele r = match PyStr.split1 " " (Nom_Total r) with
                | _ :: m :: _ => m
                | _ => NA
                end.
Proof.
  unfold extract_car_details.
  destruct (find_all "div" (Some "options") car_div) as [|options0 rest];
    [discriminate|].
  destruct (find_all "div" None options0) as [|d0 [|d1 [|d2 [|d3 ds]]]];
    try discriminate.
  intros H. injection H as <-. simpl. split; reflexivity.
Qed.

Lemma split1_without_sep (s : string) :
  PyStr.existsb is_blank s = false -> PyStr.split1 " " s = [s].
Proof.
  induction s as [|c s IH]; simpl; [reflexivity|].
  unfold is_blank at 1. intros H. apply orb_false_iff in H. destruct H as [Hc Hs].
  rewrite Hc, (IH Hs). reflexivity.
Qed.

Lemma split1_at_sep (a m : string) :
  PyStr.existsb is_blank a = false ->
  PyStr.split1 " " (a ++ String " " m) = [a; m].
Proof.
  induction a as [|c a IH]; simpl; [reflexivity|].
  unfold is_blank at 1. intros H. apply orb_false_iff in H. destruct H as [Hc Hs].
  rewrite Hc, (IH Hs). reflexivity.
Qed.

(** C7 as stated fails on a name whose words are separated by whitespace
    other than a blank: the brand is then the whole name. *)
Lemma brand_not_first_whitespace_token :
  ~ (forall (car_div : node) (r : raw_record),
        extract_car_details car_div = Some r ->
        Marque r = spec_first_token (Nom_Total r)
        /\ Modele r = spec_model (Nom_Total r)).
Proof.
  intros H.
  destruct (H (card tabbed_title "45 000 DT" ["2015"; "80 000 Km"; "Diesel"; "Automatique"])
              _ eq_refl) as [Hb _].
  vm_compute in Hb. discriminate Hb.
Qed.

(** C7, amended.  In every record produced by extraction the brand is the
    part of the full name before its first blank (U+0020) and the model is
    everything after that blank; a name without a blank is its own brand
    and has the marker as model. *)
Theorem brand_model_split_at_first_blank (car_div : node) (r : raw_record) :
  extract_car_details car_div = Some r ->
  (PyStr.existsb is_blank (Nom_Total r) = false ->
   Marque r = Nom_Total r /\ Modele r = NA)
  /\ (forall a m : string,
        Nom_Total r = a ++ String " " m -> PyStr.existsb is_blank a = false ->
        Marque r = a /\ Modele r = m).
Proof.
  intros H. destruct (extract_name_parts _ _ H) as [Hb Hm]. split.
  - intros Hn. rewrite Hb, Hm, (split1_without_sep _ Hn). split; reflexivity.
  - intros a m E Ha. rewrite Hb, Hm, E, (split1_at_sep _ _ Ha). split; reflexivity.
Qed.

Lemma brand_model_split_at_first_blank_witness :
  exists r,
    extract_car_details
      (card "Alfa Romeo  Giulia" "95 000 DT" ["2020"; "30 000 Km"; "Essence"; "Automatique"])
    = Some r
    /\ Marque r = "Alfa" /\ Modele r = "Romeo  Giulia".
Proof.
  eexists. split; [reflexivity|].
  eapply (brand_model_split_at_first_blank
            (card "Alfa Romeo  Giulia" "95 000 DT"
               ["2020"; "30 000 Km"; "Essence"; "Automatique"]));
    reflexivity.
Defined.

(** ** Extraction followed by normalisation *)

Lemma clean_toyota (current_year : Z) :
  clean_car current_year toyota_raw = toyota_cleaned current_year.
Proof. reflexivity. Qed.

(** C2.  A block whose title reads "Toyota Corolla", whose price reads
    "45 000 DT" and whose options container has four sub-sections labelled
    "2015", "80 000 Km", "Diesel" and "Automatique" is extracted and
    normalised to the record with brand "Toyota", model "Corolla", year
    "2015", the current year minus 2015 as age, mileage "80000", fuel
    "Diesel", transmission "Automatique" and price "45000". *)
Theorem toyota_corolla_pipeline
    (current_year : Z) (car_div title price options0 d0 d1 d2 d3 s0 s1 s2 s3 : node)
    (more : list node) :
  find "h3" (Some "lib-car") car_div = Some title -> text title = "Toyota Corolla" ->
  find "div" (Some "price") car_div = Some price -> text price = "45 000 DT" ->
  find_all "div" (Some "options") car_div = options0 :: more ->
  sub_sections options0 = [d0; d1; d2; d3] ->
  find "span" None d0 = Some s0 -> text s0 = "2015" ->
  find "span" None d1 = Some s1 -> text s1 = "80 000 Km" ->
  find "span" None d2 = Some s2 -> text s2 = "Diesel" ->
  find "span" None d3 = Some s3 -> text s3 = "Automatique" ->
  clean_and_format_data current_year [extract_car_details car_div]
  = [toyota_cleaned current_year].
Proof.
  intros Ht Et Hp Ep Ho Hd H0 E0 H1 E1 H2 E2 H3 E3.
  assert (X : extract_car_details car_div = Some toyota_raw).
  { unfold extract_car_details. unfold sub_sections in Hd.
    rewrite Ht, Hp, Ho, Hd, H0, H1, H2, H3. unfold text_or_NA.
    rewrite Et, Ep, E0, E1, E2, E3. reflexivity. }
  rewrite X. cbn [clean_and_format_data]. rewrite clean_toyota. reflexivity.
Qed.

Lemma toyota_corolla_pipeline_witness :
  clean_and_format_data 2026 [extract_car_details toyota_card]
  = [{| c_Nom_Total := "Toyota Corolla"; c_Marque := "Toyota"; c_Modele := "Corolla";
        c_Annee := "2015"; c_Age := "11";
        c_Kilometrage := "80000"; c_Carburant := "Diesel";
        c_Boite := "Automatique"; c_Prix := "45000" |}].
Proof.
  apply (toyota_corolla_pipeline 2026 toyota_card
           (Tag "h3" ["lib-car"] [NavigableString "Toyota Corolla"])
           (Tag "div" ["price"] [NavigableString "45 000 DT"])
           (Tag "div" ["options"]
              (map option_div ["2015"; "80 000 Km"; "Diesel"; "Automatique"]))
           (option_div "2015") (option_div "80 000 Km")
           (option_div "Diesel") (option_div "Automatique")
           (Tag "span" [] [NavigableString "2015"])
           (Tag "span" [] [NavigableString "80 000 Km"])
           (Tag "span" [] [NavigableString "Diesel"])
           (Tag "span" [] [NavigableString "Automatique"])
           []); reflexivity.
Defined.

(** ** The walk *)

Section Walk.
Variable w : world.

Lemma for_car_divs_run (car_divs : list node) (all_cars : list raw_record) :
  for_car_divs car_divs all_cars
  = ([], (all_cars ++ kept (map extract_car_details car_divs))%list, inr tt).
Proof.
  revert all_cars. induction car_divs as [|d ds IH]; intros all_cars; simpl.
  - rewrite app_nil_r. reflexivity.
  - unfold bind. destruct (extract_car_details d) as [r|]; simpl; rewrite IH; simpl.
    + rewrite <- app_assoc. reflexivity.
    + reflexivity.
Qed.

Lemma raise_for_status_run (r : response) (all_cars : list raw_record) :
  (if (400 <=? status_code r) && (status_code r <? 600)
   then exists msg, raise_for_status r all_cars
                    = ([], all_cars, inl (mk_exn RequestException msg))
   else raise_for_status r all_cars = ([], all_cars, inr tt)).
Proof.
  unfold raise_for_status.
  destruct (400 <=? status_code r) eqn:A; destruct (status_code r <? 500) eqn:B;
    destruct (500 <=? status_code r) eqn:C; destruct (status_code r <? 600) eqn:D;
    simpl; try (eexists; reflexivity); try reflexivity; exfalso; lia.
Qed.

(** A page whose fetch fails: the request, one error line, no pause, and
    [all_cars] as it was. *)
Lemma scrape_page_failure (base_url : string) (page : Z) (all_cars : list raw_record) :
  fetch_fails w (page_url base_url page) = true ->
  exists msg,
    scrape_page w base_url page all_cars
    = ([Get (page_url base_url page) false 10;
        Log ERROR ("Error scraping page " ++ PyStr.str page ++ ": " ++ msg)],
       all_cars, inr tt).
Proof.
  unfold fetch_fails, scrape_page, get.
  destruct (requests_get w (page_url base_url page)) as [msg|r]; intros F.
  - exists msg. reflexivity.
  - pose proof (raise_for_status_run r all_cars) as R. rewrite F in R.
    destruct R as [msg R]. exists msg.
    cbv beta iota delta [try_except bind emit ret]. rewrite R. reflexivity.
Qed.

Lemma failed_fetch_not_parsed (url : string) :
  fetch_fails w url = true -> parser_error w url = None.
Proof.
  unfold fetch_fails, parser_error.
  destruct (requests_get w url) as [msg|r]; [reflexivity|]. intros ->. reflexivity.
Qed.

Lemma page_records_failed (base_url : string) (page : Z) :
  fetch_fails w (page_url base_url page) = true -> page_records w base_url page = [].
Proof.
  unfold fetch_fails, page_records.
  destruct (requests_get w (page_url base_url page)) as [msg|r]; [reflexivity|].
  intros ->. reflexivity.
Qed.

(** A page whose fetch succeeds and whose body the parser accepts: the
    request, the records of its blocks appended, one information line,
    one pause. *)
Lemma scrape_page_success (base_url : string) (page : Z) (all_cars : list raw_record) :
  fetch_fails w (page_url base_url page) = false ->
  parser_error w (page_url base_url page) = None ->
  exists msg : string,
    scrape_page w base_url page all_cars
    = ([Get (page_url base_url page) false 10; Log INFO msg; Sleep 1],
       (all_cars ++ page_records w base_url page)%list, inr tt).
Proof.
  unfold fetch_fails, parser_error, page_records, scrape_page, get.
  destruct (requests_get w (page_url base_url page)) as [msg|r]; intros F P;
    [discriminate F|].
  pose proof (raise_for_status_run r all_cars) as R. rewrite F in R. rewrite F in P.
  rewrite F. destruct (html_parser w (resp_text r)) as [msg|soup] eqn:Hp;
    [discriminate P|].
  eexists. cbv beta iota delta [try_except bind emit ret BeautifulSoup].
  rewrite R, Hp. cbv beta iota. rewrite for_car_divs_run. reflexivity.
Qed.

(** A page whose fetch succeeds and whose body the parser rejects: the
    request, and the parser's exception, which the handler lets through. *)
Lemma scrape_page_rejected (base_url : string) (page : Z) (all_cars : list raw_record)
    (msg : string) :
  parser_error w (page_url base_url page) = Some msg ->
  scrape_page w base_url page all_cars
  = ([Get (page_url base_url page) false 10], all_cars,
     inl (mk_exn ParserException msg)).
Proof.
  unfold parser_error, scrape_page, get.
  destruct (requests_get w (page_url base_url page)) as [m|r]; [discriminate|].
  destruct ((400 <=? status_code r) && (status_code r <? 600)) eqn:F; [discriminate|].
  pose proof (raise_for_status_run r all_cars) as R. rewrite F in R.
  destruct (html_parser w (resp_text r)) as [m|soup] eqn:Hp; [|discriminate].
  intros H. injection H as <-.
  cbv beta iota delta [try_except bind emit ret raise BeautifulSoup].
  rewrite R, Hp. reflexivity.
Qed.

(** The loop over a list of page numbers, none of which the parser
    rejects, requests each of them once, in order, and returns normally. *)
Lemma for_pages_run (base_url : string) (pages : list Z) (all_cars : list raw_record) :
  Forall (fun page => parser_error w (page_url base_url page) = None) pages ->
  exists tr all_cars',
    for_pages w base_url pages all_cars = (tr, all_cars', inr tt)
    /\ fetched tr = map (page_url base_url) pages
    /\ (Forall (fun page => fetch_fails w (page_url base_url page) = true) pages ->
        all_cars' = all_cars /\ pauses tr = []).
Proof.
  revert all_cars. induction pages as [|p ps IH]; intros all_cars Hacc; simpl.
  - exists [], all_cars. repeat split; reflexivity.
  - inversion Hacc as [|? ? Hp Hps]; subst. unfold bind.
    destruct (fetch_fails w (page_url base_url p)) eqn:F.
    + destruct (scrape_page_failure base_url p all_cars F) as [msg ->].
      destruct (IH all_cars Hps) as (tr & cars' & -> & Hf & Hall).
      eexists. eexists. split; [reflexivity|]. split.
      * simpl. rewrite Hf. reflexivity.
      * intros Hfail. inversion Hfail; subst. simpl. auto.
    + destruct (scrape_page_success base_url p all_cars F Hp) as (msg & ->).
      destruct (IH (all_cars ++ page_records w base_url p)%list Hps)
        as (tr & cars' & -> & Hf & _).
      eexists. eexists. split; [reflexivity|]. split.
      * simpl. rewrite Hf. reflexivity.
      * intros Hfail. inversion Hfail; subst. congruence.
Qed.

Lemma range_length (lo hi : Z) : List.length (range lo hi) = Z.to_nat (hi - lo).
Proof. unfold range. rewrite length_map, length_seq. reflexivity. Qed.

Lemma range_In (lo hi page : Z) : In page (range lo hi) <-> lo <= page < hi.
Proof.
  unfold range. rewrite in_map_iff. split.
  - intros (i & <- & Hi). apply in_seq in Hi. lia.
  - intros H. exists (Z.to_nat (page - lo)). split; [lia|]. apply in_seq. lia.
Qed.

Lemma range_nth (lo hi : Z) (i : nat) :
  (i < Z.to_nat (hi - lo))%nat -> nth i (range lo hi) 0 = lo + Z.of_nat i.
Proof.
  intros H. unfold range.
  rewrite (nth_indep _ 0 (lo + Z.of_nat 0)) by (rewrite length_map, length_seq; exact H).
  rewrite (map_nth (fun i => lo + Z.of_nat i)), seq_nth by exact H. reflexivity.
Qed.

End Walk.

Example walk_two_good_pages :
  scrape_car_listings one_card_per_page "u" 2
  = ([Get "u&page=1" false 10; Log INFO "Scraped page 1: 1 cars found"; Sleep 1;
      Get "u&page=2" false 10; Log INFO "Scraped page 2: 1 cars found"; Sleep 1],
     inr [toyota_raw; toyota_raw]).
Proof. reflexivity. Qed.

Example walk_rejected_second_page :
  scrape_car_listings second_page_rejected "u" 3
  = ([Get "u&page=1" false 10; Log INFO "Scraped page 1: 1 cars found"; Sleep 1;
      Get "u&page=2" false 10],
     inl (mk_exn ParserException "unknown status keyword 'x' in marked section")).
Proof. reflexivity. Qed.

(** C3 as stated: whatever happens, the walk requests all of the pages 1
    to N and returns a list.  It fails when the body of a page that was
    fetched makes the parser raise: the handler of the loop takes only the
    exceptions of the request, so the walk ends there. *)
Lemma walk_stops_at_rejected_markup :
  ~ (forall (w : world) (base_url : string) (N : Z),
        1 <= N ->
        exists (tr : list event) (all_cars : list raw_record),
          scrape_car_listings w base_url N = (tr, inr all_cars)
          /\ fetched tr = map (page_url base_url) (range 1 (N + 1))
          /\ ((forall page : Z, 1 <= page <= N ->
                 fetch_fails w (page_url base_url page) = true) ->
              all_cars = [])).
Proof.
  intros H. destruct (H second_page_rejected "u" 3 ltac:(lia)) as (tr & cars & E & _).
  rewrite walk_rejected_second_page in E. discriminate E.
Qed.

(** C3, amended.  With [max_pages = N >= 1], when the parser rejects the
    body of none of the pages 1 to N that are fetched, the walk requests
    the pages 1 to N, each once and in order, whatever the outcome of each
    request, and returns a list; when every one of these requests fails
    (the parser is then never called) the list is empty. *)
Theorem walk_fetches_every_page (w : world) (base_url : string) (N : Z) :
  1 <= N ->
  (forall page : Z, 1 <= page <= N -> parser_error w (page_url base_url page) = None) ->
  exists (tr : list event) (all_cars : list raw_record),
    scrape_car_listings w base_url N = (tr, inr all_cars)
    /\ fetched tr = map (page_url base_url) (range 1 (N + 1))
    /\ List.length (fetched tr) = Z.to_nat N
    /\ (forall i : nat, (i < Z.to_nat N)%nat ->
          nth i (fetched tr) EmptyString = page_url base_url (1 + Z.of_nat i))
    /\ ((forall page : Z, 1 <= page <= N ->
           fetch_fails w (page_url base_url page) = true) ->
        all_cars = []).
Proof.
  intros HN Hacc. unfold scrape_car_listings.
  assert (Hacc' : Forall (fun page => parser_error w (page_url base_url page) = None)
                    (range 1 (N + 1))).
  { apply Forall_forall. intros page Hp. apply range_In in Hp. apply Hacc. lia. }
  destruct (for_pages_run w base_url (range 1 (N + 1)) [] Hacc')
    as (tr & cars & E & Hf & Hall).
  exists tr, cars. rewrite E. split; [reflexivity|]. split; [exact Hf|].
  assert (L : Z.to_nat (N + 1 - 1) = Z.to_nat N) by (f_equal; lia).
  split; [|split].
  - rewrite Hf, length_map, range_length. exact L.
  - intros i Hi. rewrite Hf.
    rewrite (nth_indep _ EmptyString (page_url base_url 0))
      by (rewrite length_map, range_length, L; exact Hi).
    rewrite (map_nth (page_url base_url)), range_nth by (rewrite L; exact Hi).
    reflexivity.
  - intros Hfail. apply Hall. apply Forall_forall. intros page Hp.
    apply range_In in Hp. apply Hfail. lia.
Qed.

Lemma walk_fetches_every_page_witness :
  exists (tr : list event) (all_cars : list raw_record),
    scrape_car_listings offline "u" 3 = (tr, inr all_cars)
    /\ fetched tr = ["u&page=1"; "u&page=2"; "u&page=3"]
    /\ all_cars = [].
Proof.
  destruct (walk_fetches_every_page offline "u" 3 ltac:(lia)
              (fun page _ => eq_refl))
    as (tr & cars & E & Hf & _ & _ & Hall).
  exists tr, cars. split; [exact E|]. split; [exact Hf|].
  apply Hall. intros page _. reflexivity.
Defined.

(** When every request fails the parser is never called, so the walk
    needs no assumption on it. *)
Lemma walk_all_requests_fail (w : world) (base_url : string) (N : Z) :
  (forall page : Z, 1 <= page <= N -> fetch_fails w (page_url base_url page) = true) ->
  exists tr : list event,
    scrape_car_listings w base_url N = (tr, inr [])
    /\ fetched tr = map (page_url base_url) (range 1 (N + 1)).
Proof.
  intros Hfail. unfold scrape_car_listings.
  assert (Hf' : Forall (fun page => fetch_fails w (page_url base_url page) = true)
                  (range 1 (N + 1))).
  { apply Forall_forall. intros page Hp. apply range_In in Hp. apply Hfail. lia. }
  assert (Hacc : Forall (fun page => parser_error w (page_url base_url page) = None)
                   (range 1 (N + 1))).
  { eapply Forall_impl; [|exact Hf']. intros page. apply failed_fetch_not_parsed. }
  destruct (for_pages_run w base_url (range 1 (N + 1)) [] Hacc)
    as (tr & cars & E & Hf & Hall).
  destruct (Hall Hf') as [-> _]. exists tr. rewrite E. split; [reflexivity | exact Hf].
Qed.

(** After a page whose fetch fails no pause is taken, whatever the page. *)
Lemma no_pause_after_failed_page
    (w : world) (base_url : string) (page : Z) (all_cars : list raw_record) :
  fetch_fails w (page_url base_url page) = true ->
  pauses (fst (fst (scrape_page w base_url page all_cars))) = [].
Proof.
  intros F. destruct (scrape_page_failure w base_url page all_cars F) as [msg ->].
  reflexivity.
Qed.

Lemma pause_after_good_page
    (w : world) (base_url : string) (page : Z) (all_cars : list raw_record) :
  fetch_fails w (page_url base_url page) = false ->
  parser_error w (page_url base_url page) = None ->
  pauses (fst (fst (scrape_page w base_url page all_cars))) = [1].
Proof.
  intros F P.
  destruct (scrape_page_success w base_url page all_cars F P) as (msg & ->).
  reflexivity.
Qed.

(** C5.  The walk over two pages whose first page is refused by the
    server: the error is logged and page 2 is requested at once; the only
    pause of the run is the one after page 2. *)
Theorem pacing_skipped_after_failed_page :
  scrape_car_listings first_page_refused "https://cars.example/search?q=1" 2
  = ([Get "https://cars.example/search?q=1&page=1" false 10;
      Log ERROR "Error scraping page 1: 503 Server Error: Service Unavailable for url: https://cars.example/search?q=1&page=1";
      Get "https://cars.example/search?q=1&page=2" false 10;
      Log INFO "Scraped page 2: 1 cars found";
      Sleep 1],
     inr [toyota_raw]).
Proof. reflexivity. Qed.

(** ** Saving *)

Example save_one_record :
  save_to_csv one_card_per_page [Some toyota_raw] "car_listings.csv" tt
  = ([Open "car_listings.csv";
      WriteRow ["Nom Total"; "Marque"; "Modele"; "Annee"; "Age (Years)";
                "Kilometrage (Km)"; "Carburant"; "Boite"; "Prix (DT)"];
      WriteRow ["Toyota Corolla"; "Toyota"; "Corolla"; "2015"; "11";
                "80000"; "Diesel"; "Automatique"; "45000"];
      Close "car_listings.csv";
      Log INFO "Data saved to car_listings.csv"],
     tt, inr tt).
Proof. reflexivity. Qed.

(** C8.  Saving an empty list does nothing but log one warning: the file
    is not opened, no row is written, no error is logged, nothing is
    raised. *)
Theorem save_nothing_when_empty (w : world) (filename : string) :
  save_to_csv w [] filename tt = ([Log WARNING "No data to save"], tt, inr tt)
  /\ List.existsb touches_sink (fst (fst (save_to_csv w [] filename tt))) = false
  /\ List.existsb is_error_line (fst (fst (save_to_csv w [] filename tt))) = false.
Proof. repeat split. Qed.

(** * Further properties *)

(** ** The walk, page by page *)

Section WalkResult.
Variable w : world.
Variable base_url : string.

(** What the loop leaves behind, for any starting list and any list of
    page numbers none of which the parser rejects. *)
Lemma for_pages_result (pages : list Z) (all_cars : list raw_record) :
  Forall (fun page => parser_error w (page_url base_url page) = None) pages ->
  exists tr,
    for_pages w base_url pages all_cars
    = (tr, (all_cars ++ flat_map (page_records w base_url) pages)%list, inr tt)
    /\ pauses tr = map (fun _ => 1) (good_pages w base_url pages)
    /\ List.length (List.filter is_info_line tr)
       = List.length (good_pages w base_url pages)
    /\ List.length (List.filter is_error_line tr)
       = List.length (failed_pages w base_url pages).
Proof.
  revert all_cars. induction pages as [|p ps IH]; intros all_cars Hacc.
  - exists []. simpl. rewrite app_nil_r. repeat split; reflexivity.
  - inversion Hacc as [|? ? Hp Hps]; subst.
    cbn [for_pages flat_map]. unfold bind, good_pages, failed_pages. cbn [List.filter].
    destruct (fetch_fails w (page_url base_url p)) eqn:F.
    + destruct (scrape_page_failure w base_url p all_cars F) as [msg ->].
      rewrite (page_records_failed w base_url p F).
      destruct (IH all_cars Hps) as (tr & -> & Hpa & Hi & He).
      eexists. split; [reflexivity|]. cbn. repeat split; auto.
    + destruct (scrape_page_success w base_url p all_cars F Hp) as (msg & ->).
      destruct (IH (all_cars ++ page_records w base_url p)%list Hps)
        as (tr & -> & Hpa & Hi & He).
      eexists. split; [rewrite <- app_assoc; reflexivity|]. cbn.
      repeat split; auto; f_equal; auto.
Qed.

(** The loop over page numbers the first of which to be rejected by the
    parser is [p]: the pages up to [p] are requested, the parser's
    exception leaves the loop and the pages after [p] are not requested. *)
Lemma for_pages_rejected (pre post : list Z) (p : Z) (msg : string)
    (all_cars : list raw_record) :
  Forall (fun page => parser_error w (page_url base_url page) = None) pre ->
  parser_error w (page_url base_url p) = Some msg ->
  exists tr all_cars',
    for_pages w base_url (pre ++ p :: post) all_cars
    = (tr, all_cars', inl (mk_exn ParserException msg))
    /\ fetched tr = map (page_url base_url) (pre ++ [p]).
Proof.
  intros Hpre Hp. revert all_cars. induction pre as [|q qs IH]; intros all_cars.
  - cbn [app for_pages]. unfold bind.
    rewrite (scrape_page_rejected w base_url p all_cars msg Hp).
    eexists. eexists. split; reflexivity.
  - inversion Hpre as [|? ? Hq Hqs]; subst. cbn [app for_pages]. unfold bind.
    destruct (fetch_fails w (page_url base_url q)) eqn:F.
    + destruct (scrape_page_failure w base_url q all_cars F) as [m ->].
      destruct (IH Hqs all_cars) as (tr & cars' & -> & Hf).
      eexists. eexists. split; [reflexivity|]. simpl. rewrite Hf. reflexivity.
    + destruct (scrape_page_success w base_url q all_cars F Hq) as (m & ->).
      destruct (IH Hqs (all_cars ++ page_records w base_url q)%list)
        as (tr & cars' & -> & Hf).
      eexists. eexists. split; [reflexivity|]. simpl. rewrite Hf. reflexivity.
Qed.

Lemma map_seq_shift (lo mid : Z) (a n k : nat) :
  lo + Z.of_nat a = mid ->
  map (fun i => lo + Z.of_nat i) (seq (S a + k) n)
  = map (fun i => mid + 1 + Z.of_nat i) (seq k n).
Proof.
  intros H. revert k. induction n as [|n IH]; intros k; [reflexivity|].
  cbn [seq map]. f_equal; [lia|].
  rewrite <- (IH (S k)). rewrite Nat.add_succ_r. reflexivity.
Qed.

Lemma range_split (lo mid hi : Z) :
  lo <= mid < hi -> range lo hi = (range lo mid ++ mid :: range (mid + 1) hi)%list.
Proof.
  intros H. unfold range.
  replace (Z.to_nat (hi - lo))
    with (Z.to_nat (mid - lo) + S (Z.to_nat (hi - (mid + 1))))%nat by lia.
  rewrite seq_app, map_app. f_equal. rewrite Nat.add_0_l. cbn [seq map].
  f_equal; [lia|].
  rewrite <- (Nat.add_0_r (S (Z.to_nat (mid - lo)))).
  apply map_seq_shift. lia.
Qed.

End WalkResult.

(** X1.  With [max_pages] zero or negative the walk requests nothing,
    logs nothing and returns the empty list. *)
Theorem walk_without_pages (w : world) (base_url : string) (N : Z) :
  N <= 0 -> scrape_car_listings w base_url N = ([], inr []).
Proof.
  intros H. unfold scrape_car_listings, range.
  replace (Z.to_nat (N + 1 - 1)) with 0%nat by lia. reflexivity.
Qed.

Lemma walk_without_pages_witness :
  scrape_car_listings one_card_per_page "u" (-2) = ([], inr []).
Proof. apply (walk_without_pages one_card_per_page "u" (-2)). lia. Defined.

(** X2.  When the parser rejects the body of none of the pages 1 to
    [max_pages] that are fetched, the list returned by the walk is the
    concatenation, in page order, of the records of the pages whose fetch
    succeeded; a failed page contributes nothing and does not disturb the
    records of the pages around it. *)
Theorem walk_collects_in_page_order (w : world) (base_url : string) (N : Z) :
  (forall page : Z, 1 <= page <= N -> parser_error w (page_url base_url page) = None) ->
  snd (scrape_car_listings w base_url N)
  = inr (flat_map (page_records w base_url) (range 1 (N + 1))).
Proof.
  intros Hacc. unfold scrape_car_listings.
  assert (Hacc' : Forall (fun page => parser_error w (page_url base_url page) = None)
                    (range 1 (N + 1))).
  { apply Forall_forall. intros page Hp. apply range_In in Hp. apply Hacc. lia. }
  destruct (for_pages_result w base_url (range 1 (N + 1)) [] Hacc') as (tr & -> & _).
  reflexivity.
Qed.

Lemma walk_collects_in_page_order_witness :
  snd (scrape_car_listings first_page_refused "https://cars.example/search?q=1" 3)
  = inr [toyota_raw; toyota_raw].
Proof.
  apply (walk_collects_in_page_order first_page_refused
           "https://cars.example/search?q=1" 3).
  intros page _. unfold parser_error. cbn [requests_get first_page_refused].
  destruct (String.eqb _ _); reflexivity.
Defined.

(** X3.  When the parser rejects the body of none of the pages that are
    fetched, there is over the whole walk one pause of one second per page
    fetched with success and none for a failed page; each successful page
    leaves one information line and each failed page one error line. *)
Theorem walk_pauses_and_lines (w : world) (base_url : string) (N : Z) :
  (forall page : Z, 1 <= page <= N -> parser_error w (page_url base_url page) = None) ->
  let tr := fst (scrape_car_listings w base_url N) in
  let pages := range 1 (N + 1) in
  pauses tr = map (fun _ => 1) (good_pages w base_url pages)
  /\ List.length (List.filter is_info_line tr) = List.length (good_pages w base_url pages)
  /\ List.length (List.filter is_error_line tr) = List.length (failed_pages w base_url pages).
Proof.
  intros Hacc. unfold scrape_car_listings. cbv zeta.
  assert (Hacc' : Forall (fun page => parser_error w (page_url base_url page) = None)
                    (range 1 (N + 1))).
  { apply Forall_forall. intros page Hp. apply range_In in Hp. apply Hacc. lia. }
  destruct (for_pages_result w base_url (range 1 (N + 1)) [] Hacc') as (tr & -> & H).
  exact H.
Qed.

Lemma walk_pauses_and_lines_witness :
  let tr := fst (scrape_car_listings first_page_refused
                   "https://cars.example/search?q=1" 3) in
  pauses tr = [1; 1]
  /\ List.length (List.filter is_info_line tr) = 2%nat
  /\ List.length (List.filter is_error_line tr) = 1%nat.
Proof.
  apply (walk_pauses_and_lines first_page_refused "https://cars.example/search?q=1" 3).
  intros page _. unfold parser_error. cbn [requests_get first_page_refused].
  destruct (String.eqb _ _); reflexivity.
Defined.

(** X15.  When page [p] is the first whose body the parser rejects, the
    walk requests the pages 1 to [p] and no other, and the parser's
    exception leaves the walk: no list is returned, not even the records
    of the pages before [p]. *)
Theorem walk_raises_on_rejected_page
    (w : world) (base_url : string) (N p : Z) (msg : string) :
  1 <= p <= N ->
  (forall q : Z, 1 <= q < p -> parser_error w (page_url base_url q) = None) ->
  parser_error w (page_url base_url p) = Some msg ->
  exists tr : list event,
    scrape_car_listings w base_url N = (tr, inl (mk_exn ParserException msg))
    /\ fetched tr = map (page_url base_url) (range 1 (p + 1)).
Proof.
  intros Hp Hbefore Hrej. unfold scrape_car_listings.
  rewrite (range_split 1 p (N + 1)) by lia.
  assert (Hpre : Forall (fun q => parser_error w (page_url base_url q) = None)
                   (range 1 p)).
  { apply Forall_forall. intros q Hq. apply range_In in Hq. apply Hbefore. lia. }
  destruct (for_pages_rejected w base_url (range 1 p) (range (p + 1) (N + 1)) p msg []
              Hpre Hrej) as (tr & cars' & -> & Hf).
  exists tr. split; [reflexivity|]. rewrite Hf.
  rewrite (range_split 1 p (p + 1)) by lia.
  replace (range (p + 1) (p + 1)) with (@nil Z); [reflexivity|].
  unfold range. replace (Z.to_nat (p + 1 - (p + 1))) with 0%nat by lia. reflexivity.
Qed.

Lemma walk_raises_on_rejected_page_witness :
  exists tr : list event,
    scrape_car_listings second_page_rejected "u" 3
    = (tr, inl (mk_exn ParserException "unknown status keyword 'x' in marked section"))
    /\ fetched tr = ["u&page=1"; "u&page=2"].
Proof.
  apply (walk_raises_on_rejected_page second_page_rejected "u" 3 2).
  - lia.
  - intros q Hq. replace q with 1 by lia. reflexivity.
  - reflexivity.
Defined.

(** ** Saving *)

Section Save.
Variable w : world.

Lemma write_rows_run (cars : list cleaned_record) :
  write_rows cars tt = (map (fun car => WriteRow (row car)) cars, tt, inr tt).
Proof.
  induction cars as [|car rest IH]; [reflexivity|].
  cbn [write_rows]. unfold bind, emit. rewrite IH. reflexivity.
Qed.



Lemma fetched_rows (cars : list cleaned_record) :
  fetched (map (fun car => WriteRow (row car)) cars) = [].
Proof. induction cars as [|car rest IH]; [reflexivity|exact IH]. Qed.

Lemma save_trace_opened (cars : list (option raw_record)) (filename : string) :
  cars <> [] -> open_error w filename = None ->
  save_to_csv w cars filename tt
  = ((Open filename :: WriteRow fieldnames
      :: map (fun car => WriteRow (row car)) (clean_and_format_data (now_year w) cars)
      ++ [Close filename; Log INFO ("Data saved to " ++ filename)])%list,
     tt, inr tt).
Proof.
  intros Hne Ho. destruct cars as [|c cs]; [contradiction|].
  unfold save_to_csv, open_. rewrite Ho.
  cbv beta iota delta [try_except bind emit ret logging_info].
  rewrite write_rows_run. reflexivity.
Qed.

Lemma save_trace_refused (cars : list (option raw_record)) (filename msg : string) :
  cars <> [] -> open_error w filename = Some msg ->
  save_to_csv w cars filename tt
  = ([Open filename; Log ERROR ("Error saving CSV: " ++ msg)], tt, inr tt).
Proof.
  intros Hne Ho. destruct cars as [|c cs]; [contradiction|].
  unfold save_to_csv, open_. rewrite Ho. reflexivity.
Qed.

(** Saving always returns; it requests nothing, and touches the sink only
    for a non-empty list. *)
Lemma save_run (cars : list (option raw_record)) (filename : string) :
  exists tr,
    save_to_csv w cars filename tt = (tr, tt, inr tt)
    /\ fetched tr = []
    /\ (cars = [] -> List.existsb touches_sink tr = false).
Proof.
  destruct cars as [|c cs].
  - eexists. split; [reflexivity|]. split; reflexivity.
  - destruct (open_error w filename) as [msg|] eqn:Ho.
    + rewrite (save_trace_refused (c :: cs) filename msg) by (discriminate || exact Ho).
      eexists. split; [reflexivity|]. split; [reflexivity|discriminate].
    + rewrite (save_trace_opened (c :: cs) filename) by (discriminate || exact Ho).
      eexists. split; [reflexivity|]. split; [|discriminate].
      cbn [fetched flat_map app]. change (flat_map _ ?l) with (fetched l).
      unfold fetched. rewrite flat_map_app. fold (fetched (map (fun car => WriteRow (row car))
        (clean_and_format_data (now_year w) (c :: cs)))).
      rewrite fetched_rows. reflexivity.
Qed.

End Save.



(** X5.  When the file cannot be opened, saving a non-empty list writes
    no row, logs the error once and returns without raising. *)
Theorem save_open_failure
    (w : world) (cars : list (option raw_record)) (filename msg : string) :
  cars <> [] -> open_error w filename = Some msg ->
  save_to_csv w cars filename tt
  = ([Open filename; Log ERROR ("Error saving CSV: " ++ msg)], tt, inr tt).
Proof.
  intros Hne Ho. exact (save_trace_refused w cars filename msg Hne Ho).
Qed.

Lemma save_open_failure_witness :
  save_to_csv read_only_disk [Some toyota_raw] "car_listings.csv" tt
  = ([Open "car_listings.csv";
      Log ERROR "Error saving CSV: [Errno 13] Permission denied: 'car_listings.csv'"],
     tt, inr tt).
Proof.
  apply (save_open_failure read_only_disk [Some toyota_raw] "car_listings.csv").
  - discriminate.
  - reflexivity.
Defined.

(** ** The whole run *)

Lemma for_pages_no_sink (w : world) (base_url : string) (pages : list Z)
    (all_cars : list raw_record) :
  List.existsb touches_sink (fst (fst (for_pages w base_url pages all_cars))) = false.
Proof.
  revert all_cars. induction pages as [|p ps IH]; intros all_cars; [reflexivity|].
  cbn [for_pages]. unfold bind.
  destruct (parser_error w (page_url base_url p)) as [m|] eqn:P.
  - rewrite (scrape_page_rejected w base_url p all_cars m P). reflexivity.
  - destruct (fetch_fails w (page_url base_url p)) eqn:F.
    + destruct (scrape_page_failure w base_url p all_cars F) as [msg ->].
      specialize (IH all_cars).
      destruct (for_pages w base_url ps all_cars) as [[tr st] r]. exact IH.
    + destruct (scrape_page_success w base_url p all_cars F P) as (msg & ->).
      match goal with
      | |- context [for_pages w base_url ps ?st] => specialize (IH st);
          destruct (for_pages w base_url ps st) as [[tr st'] r']
      end.
      exact IH.
Qed.

(** A walk that returns has requested every page. *)
Lemma for_pages_returned (w : world) (base_url : string) (pages : list Z)
    (all_cars all_cars' : list raw_record) (tr : list event) (u : unit) :
  for_pages w base_url pages all_cars = (tr, all_cars', inr u) ->
  fetched tr = map (page_url base_url) pages.
Proof.
  revert all_cars all_cars' tr. induction pages as [|p ps IH]; intros all_cars all_cars' tr.
  - cbn. intros H. injection H as <- _ _. reflexivity.
  - cbn [for_pages]. unfold bind.
    destruct (parser_error w (page_url base_url p)) as [m|] eqn:P.
    + rewrite (scrape_page_rejected w base_url p all_cars m P). discriminate.
    + destruct (fetch_fails w (page_url base_url p)) eqn:F.
      * destruct (scrape_page_failure w base_url p all_cars F) as [msg ->].
        destruct (for_pages w base_url ps all_cars) as [[tr1 st1] r1] eqn:E.
        intros H. injection H as Htr Hst Hr. subst. cbn. f_equal. exact (IH _ _ _ E).
      * destruct (scrape_page_success w base_url p all_cars F P) as (msg & ->).
        match goal with
        | |- context [for_pages w base_url ps ?st] =>
            destruct (for_pages w base_url ps st) as [[tr1 st1] r1] eqn:E
        end.
        intros H. injection H as Htr Hst Hr. subst. cbn. f_equal. exact (IH _ _ _ E).
Qed.

Lemma main_state (root : option log_config) :
  match root with
  | Some cfg => Some cfg
  | None => Some {| cfg_level := INFO;
                    cfg_format := "%(asctime)s - %(levelname)s: %(message)s";
                    cfg_datefmt := "%Y-%m-%d %H:%M:%S" |}
  end <> None.
Proof. destruct root; discriminate. Qed.

(** X6.  Whatever the transport, the parser and the disk do, [main]
    returns without raising and leaves the logging configured.  When its
    walk returns, it has requested the pages 1 to 5 of its fixed address,
    each once and in order; the list is then saved under the default file
    name and the last act is the line giving the number of records
    scraped, which is logged even when the file could not be written.
    When the walk raises, nothing is saved and the last act is the error
    line carrying the exception's message. *)
Theorem main_run (w : world) (root : option log_config) :
  exists root' : option log_config,
    root' <> None
    /\ match scrape_car_listings w main_base_url 5 with
       | (tr_walk, inr cars) =>
           fetched tr_walk = map (page_url main_base_url) [1; 2; 3; 4; 5]
           /\ exists tr_save : list event,
                save_to_csv w (map Some cars) "car_listings.csv" tt = (tr_save, tt, inr tt)
                /\ main w root
                   = ((tr_walk ++ tr_save
                       ++ [Log INFO ("Total cars scraped: "
                                     ++ PyStr.str (Z.of_nat (List.length cars)))])%list,
                      root', inr tt)
       | (tr_walk, inl e) =>
           main w root
           = ((tr_walk
               ++ [Log ERROR ("Unexpected error in main process: " ++ exn_msg e)])%list,
              root', inr tt)
       end.
Proof.
  eexists. split; [exact (main_state root)|].
  pose proof (for_pages_returned w main_base_url (range 1 (5 + 1)) []) as Hret.
  unfold main, setup_logging, default_max_pages, default_filename.
  cbv beta iota delta [try_except_Exception bind modify call call_unit logging_info
                       logging_error emit].
  unfold scrape_car_listings in *.
  destruct (for_pages w main_base_url (range 1 (5 + 1)) []) as [[tr st] [e|[]]].
  - reflexivity.
  - split; [exact (Hret _ _ _ eq_refl)|].
    destruct (save_run w (map Some st) "car_listings.csv") as (tr_save & Es & _).
    exists tr_save. split; [exact Es|]. cbn [fst snd]. rewrite Es. reflexivity.
Qed.

Example main_rejected_third_page :
  fst (fst (main third_page_rejected None))
  = [Get (main_base_url ++ "&page=1") false 10; Log INFO "Scraped page 1: 1 cars found";
     Sleep 1;
     Get (main_base_url ++ "&page=2") false 10; Log INFO "Scraped page 2: 1 cars found";
     Sleep 1;
     Get (main_base_url ++ "&page=3") false 10;
     Log ERROR "Unexpected error in main process: unknown status keyword 'x' in marked section"].
Proof. reflexivity. Qed.

(** X7.  When the walk brings back no record, [main] never touches the
    output file: nothing is opened, written or closed. *)
Theorem main_without_records (w : world) (root : option log_config) :
  snd (scrape_car_listings w main_base_url 5) = inr [] ->
  List.existsb touches_sink (fst (fst (main w root))) = false.
Proof.
  intros H.
  pose proof (for_pages_no_sink w main_base_url (range 1 (5 + 1)) []) as Hn.
  unfold main, setup_logging, default_max_pages, default_filename.
  cbv beta iota delta [try_except_Exception bind modify call call_unit logging_info emit].
  unfold scrape_car_listings in *.
  destruct (for_pages w main_base_url (range 1 (5 + 1)) []) as [[tr st] [e|[]]];
    cbn [fst snd] in *; try discriminate H.
  injection H as ->. cbn. rewrite ?app_nil_r, existsb_app, Hn. reflexivity.
Qed.

Lemma main_without_records_witness :
  List.existsb touches_sink (fst (fst (main offline None))) = false.
Proof. apply (main_without_records offline None). reflexivity. Defined.

Example main_offline :
  fst (fst (main offline None))
  = [Get (main_base_url ++ "&page=1") false 10; Log ERROR "Error scraping page 1: timed out";
     Get (main_base_url ++ "&page=2") false 10; Log ERROR "Error scraping page 2: timed out";
     Get (main_base_url ++ "&page=3") false 10; Log ERROR "Error scraping page 3: timed out";
     Get (main_base_url ++ "&page=4") false 10; Log ERROR "Error scraping page 4: timed out";
     Get (main_base_url ++ "&page=5") false 10; Log ERROR "Error scraping page 5: timed out";
     Log WARNING "No data to save";
     Log INFO "Total cars scraped: 0"].
Proof. reflexivity. Qed.

(** ** The age *)

Section Age.
Import PyStr.

Lemma digit_value_nonneg (c : ascii) : isdecimal c = true -> 0 <= digit_value c <= 9.
Proof.
  unfold isdecimal, digit_value. intros H. apply andb_true_iff in H.
  destruct H as [A B]. apply Nat.leb_le in A, B.
  revert A B. generalize (nat_of_ascii c). intros n A B. lia.
Qed.

Lemma int_acc_nonneg (s : string) (acc : Z) :
  forallb isdecimal s = true -> 0 <= acc -> 0 <= int_acc acc s.
Proof.
  revert acc. induction s as [|c s IH]; intros acc H Hacc; cbn [int_acc]; [exact Hacc|].
  cbn [forallb] in H. apply andb_true_iff in H. destruct H as [Hc Hs].
  apply IH; [exact Hs|]. pose proof (digit_value_nonneg c Hc). lia.
Qed.

(** A numeral of [n] digits is below the [n]-th power of ten. *)
Lemma int_acc_lt (s : string) (acc : Z) :
  forallb isdecimal s = true -> 0 <= acc ->
  int_acc acc s < (acc + 1) * 10 ^ Z.of_nat (String.length s).
Proof.
  revert acc. induction s as [|c s IH]; intros acc H Hacc.
  - cbn [int_acc String.length]. change (10 ^ Z.of_nat 0) with 1. lia.
  - cbn [forallb] in H. apply andb_true_iff in H. destruct H as [Hc Hs].
    pose proof (digit_value_nonneg c Hc) as Hd.
    cbn [int_acc String.length]. rewrite Nat2Z.inj_succ, Z.pow_succ_r by lia.
    specialize (IH (10 * acc + digit_value c) Hs ltac:(lia)).
    assert (Hp : 0 < 10 ^ Z.of_nat (String.length s)) by (apply Z.pow_pos_nonneg; lia).
    nia.
Qed.

(** A numeral is never the unknown marker. *)
Lemma str_not_NA (n : Z) : str n <> NA.
Proof.
  unfold str, NilZero.string_of_int, NilZero.string_of_uint.
  destruct (Z.to_int n) as [u|u]; destruct u; simpl; discriminate.
Qed.

Lemma str_negative (n : Z) : n < 0 -> exists t, str n = String "-" t.
Proof.
  intros H. destruct n as [|p|p]; try lia.
  unfold str. simpl. eexists. reflexivity.
Qed.

Lemma int_of_digits (s : string) :
  forallb isdecimal s = true -> s <> EmptyString ->
  (String.length s <=? int_max_str_digits)%nat = true ->
  int s = Some (int_acc 0 s).
Proof.
  intros Hd Hne Hl. unfold int. destruct s as [|c s]; [contradiction|].
  rewrite Hd, Hl. reflexivity.
Qed.

Lemma int_too_long (s : string) :
  (int_max_str_digits <? String.length s)%nat = true -> int s = None.
Proof.
  intros Hl. unfold int. destruct s as [|c s]; [reflexivity|].
  apply Nat.ltb_lt in Hl. apply Nat.leb_gt in Hl. rewrite Hl, andb_false_r.
  reflexivity.
Qed.

Lemma int_some_digits (s : string) (v : Z) :
  int s = Some v ->
  forallb isdecimal s = true /\ v = int_acc 0 s.
Proof.
  unfold int. destruct s as [|c s]; [discriminate|].
  destruct (forallb isdecimal (String c s)); [|discriminate].
  destruct (String.length (String c s) <=? int_max_str_digits)%nat; [|discriminate].
  intros H. injection H as <-. split; reflexivity.
Qed.

(** The age, once [int] has read the cleaned year. *)
Lemma age_of_int (y : Z) (year : string) (v : Z) :
  int year = Some v -> age_of y year = str (y - v).
Proof.
  intros Hi. destruct (int_some_digits _ _ Hi) as [Hd _].
  unfold age_of. rewrite (digits_not_NA _ Hd), Hi. reflexivity.
Qed.

(** The cleaned year of a record whose year text holds a digit. *)
Lemma year_with_digits (y : Z) (r : raw_record) :
  existsb isdecimal (Annee r) = true ->
  c_Annee (clean_car y r) = filter isdecimal (Annee r)
  /\ filter isdecimal (Annee r) <> EmptyString.
Proof.
  intros H. cbn [clean_car c_Annee]. split.
  - destruct (digits_or_NA_cases (Annee r)) as [[E _]|[_ E]]; [|exact E].
    rewrite E in H. discriminate H.
  - intros E. apply filter_empty in E. rewrite E in H. discriminate H.
Qed.

Lemma age_from_year (y : Z) (r : raw_record) :
  c_Age (clean_car y r) = age_of y (c_Annee (clean_car y r)).
Proof. reflexivity. Qed.

End Age.

(** X8.  When the year text of a record holds at least one digit and at
    most 4300, the age is a numeral and never the marker: the current
    year (a calendar year, between 1 and 9999) minus the number read from
    the digits of the text, all other characters being ignored.  That
    difference has itself at most 4300 digits, so [str] renders it. *)
Theorem age_known_with_digits (y : Z) (r : raw_record) :
  1 <= y <= 9999 ->
  PyStr.existsb PyStr.isdecimal (Annee r) = true ->
  (String.length (PyStr.re_sub_non_digits (Annee r)) <=? PyStr.int_max_str_digits)%nat
  = true ->
  exists v : Z,
    PyStr.int (c_Annee (clean_car y r)) = Some v
    /\ 0 <= v
    /\ Z.abs (y - v) < 10 ^ Z.of_nat PyStr.int_max_str_digits
    /\ c_Age (clean_car y r) = PyStr.str (y - v)
    /\ c_Age (clean_car y r) <> NA.
Proof.
  intros Hy H Hl. destruct (year_with_digits y r H) as (Ey & Hne).
  assert (Hd : PyStr.forallb PyStr.isdecimal (PyStr.filter PyStr.isdecimal (Annee r)) = true)
    by apply filter_keeps.
  pose proof (int_of_digits _ Hd Hne Hl) as Ei.
  exists (PyStr.int_acc 0 (PyStr.filter PyStr.isdecimal (Annee r))).
  rewrite age_from_year, Ey, (age_of_int y _ _ Ei).
  assert (Hv : 0 <= PyStr.int_acc 0 (PyStr.filter PyStr.isdecimal (Annee r)))
    by (apply int_acc_nonneg; [exact Hd | lia]).
  split; [exact Ei|]. split; [exact Hv|]. split; [|split; [reflexivity|]].
  - pose proof (int_acc_lt _ 0 Hd ltac:(lia)) as Hlt.
    apply Nat.leb_le in Hl. unfold PyStr.re_sub_non_digits in Hl.
    assert (Hpow : 10 ^ Z.of_nat (String.length (PyStr.filter PyStr.isdecimal (Annee r)))
                   <= 10 ^ Z.of_nat PyStr.int_max_str_digits)
      by (apply Z.pow_le_mono_r; lia).
    assert (Hbig : 10 ^ 4 <= 10 ^ Z.of_nat PyStr.int_max_str_digits).
    { apply Z.pow_le_mono_r; [lia|]. unfold PyStr.int_max_str_digits. lia. }
    change (10 ^ 4) with 10000 in Hbig. lia.
  - apply str_not_NA.
Qed.

Lemma age_known_with_digits_witness :
  exists v : Z,
    PyStr.int (c_Annee (clean_car 2026 raw_mixed_year)) = Some v
    /\ 0 <= v
    /\ Z.abs (2026 - v) < 10 ^ Z.of_nat PyStr.int_max_str_digits
    /\ c_Age (clean_car 2026 raw_mixed_year) = PyStr.str (2026 - v)
    /\ c_Age (clean_car 2026 raw_mixed_year) <> NA.
Proof.
  apply (age_known_with_digits 2026 raw_mixed_year); [lia | reflexivity | reflexivity].
Defined.

Example age_of_mixed_year :
  c_Annee (clean_car 2026 raw_mixed_year) = "062018"
  /\ c_Age (clean_car 2026 raw_mixed_year) = "-59992".
Proof. split; reflexivity. Qed.

(** X9.  The age is not always a string of digits: when [int] reads from
    the year text a number that exceeds the current year (a calendar
    year), the age starts with a minus sign. *)
Theorem age_negative_for_later_year (y : Z) (r : raw_record) (v : Z) :
  1 <= y <= 9999 ->
  PyStr.int (PyStr.re_sub_non_digits (Annee r)) = Some v -> Annee r <> NA -> y < v ->
  exists t, c_Age (clean_car y r) = String "-" t.
Proof.
  intros _ Hi Hna Hlt.
  assert (Ey : c_Annee (clean_car y r) = PyStr.re_sub_non_digits (Annee r)).
  { cbn [clean_car c_Annee].
    destruct (digits_or_NA_cases (Annee r)) as [[E _]|[_ E]]; [contradiction|exact E]. }
  rewrite age_from_year, Ey, (age_of_int y _ _ Hi). apply str_negative. lia.
Qed.

Lemma age_negative_for_later_year_witness :
  exists t, c_Age (clean_car 2026 raw_mixed_year) = String "-" t.
Proof.
  apply (age_negative_for_later_year 2026 raw_mixed_year 62018).
  - lia.
  - reflexivity.
  - discriminate.
  - lia.
Defined.

(** X16.  A year text with more than 4300 digits is more than [int]
    reads: the cleaned year keeps all its digits and the age is the
    marker. *)
Theorem age_unknown_for_overlong_year (y : Z) (r : raw_record) :
  (PyStr.int_max_str_digits <? String.length (PyStr.re_sub_non_digits (Annee r)))%nat
  = true ->
  c_Annee (clean_car y r) = PyStr.re_sub_non_digits (Annee r)
  /\ c_Age (clean_car y r) = NA.
Proof.
  intros Hl.
  assert (Ey : c_Annee (clean_car y r) = PyStr.re_sub_non_digits (Annee r)).
  { cbn [clean_car c_Annee].
    destruct (digits_or_NA_cases (Annee r)) as [[E _]|[_ E]]; [|exact E].
    rewrite E in Hl. discriminate Hl. }
  split; [exact Ey|]. rewrite age_from_year, Ey. unfold age_of.
  rewrite (int_too_long _ Hl). destruct (String.eqb _ NA); reflexivity.
Qed.

Lemma age_unknown_for_overlong_year_witness :
  String.length (c_Annee (clean_car 2026 raw_long_year)) = 4301%nat
  /\ c_Age (clean_car 2026 raw_long_year) = NA.
Proof.
  destruct (age_unknown_for_overlong_year 2026 raw_long_year) as [Ey Ea].
  - vm_compute. reflexivity.
  - split; [rewrite Ey; vm_compute; reflexivity | exact Ea].
Defined.

(** ** Strings: stripping and replacing *)

Section StringFacts.
Import PyStr.

Lemma append_empty_r (s : string) : s ++ EmptyString = s.
Proof. induction s as [|c s IH]; simpl; [|rewrite IH]; reflexivity. Qed.

Lemma rev_append_twice (s a b : string) :
  rev_append (rev_append s a) b = rev_append a (s ++ b).
Proof.
  revert a. induction s as [|c s IH]; intros a; simpl; [reflexivity|].
  rewrite IH. reflexivity.
Qed.

Lemma rev_rev (s : string) : rev (rev s) = s.
Proof. unfold rev. rewrite rev_append_twice. simpl. apply append_empty_r. Qed.

Lemma rev_append_app (a b acc : string) :
  rev_append (a ++ b) acc = rev_append b (rev_append a acc).
Proof. revert acc. induction a as [|c a IH]; intros acc; simpl; [|rewrite IH]; reflexivity. Qed.

Lemma rev_append_split (s a b : string) :
  rev_append s (a ++ b) = rev_append s a ++ b.
Proof.
  revert a. induction s as [|c s IH]; intros a; simpl; [reflexivity|].
  exact (IH (String c a)).
Qed.

Lemma rev_append_acc (s acc : string) : rev_append s acc = rev s ++ acc.
Proof. unfold rev. rewrite <- rev_append_split. reflexivity. Qed.

Lemma rev_app (a b : string) : rev (a ++ b) = rev b ++ rev a.
Proof. unfold rev at 1. rewrite rev_append_app. apply rev_append_acc. Qed.

Lemma filter_rev_append (p : ascii -> bool) (s acc : string) :
  filter p (rev_append s acc) = rev_append (filter p s) (filter p acc).
Proof.
  revert acc. induction s as [|c s IH]; intros acc; cbn [rev_append filter]; [reflexivity|].
  rewrite IH. cbn [filter]. destruct (p c); reflexivity.
Qed.

Lemma filter_rev (p : ascii -> bool) (s : string) : filter p (rev s) = rev (filter p s).
Proof. unfold rev. apply filter_rev_append. Qed.

Lemma space_not_digit (c : ascii) : isspace c = true -> isdecimal c = false.
Proof.
  destruct c as [[] [] [] [] [] [] [] []]; vm_compute; intros H;
    reflexivity || discriminate H.
Qed.

Lemma blank_is_space (c : ascii) : is_blank c = true -> isspace c = true.
Proof. unfold is_blank. intros H. apply Ascii.eqb_eq in H. subst c. reflexivity. Qed.

Lemma lstrip_head (s : string) (c : ascii) (t : string) :
  lstrip s = String c t -> isspace c = false.
Proof.
  induction s as [|a s IH]; cbn [lstrip]; [discriminate|].
  destruct (isspace a) eqn:E; [exact IH|]. intros H. injection H as <- _. exact E.
Qed.

Lemma lstrip_suffix (s : string) : exists p, s = p ++ lstrip s.
Proof.
  induction s as [|a s [p IH]]; cbn [lstrip]; [exists EmptyString; reflexivity|].
  destruct (isspace a).
  - exists (String a p). simpl. rewrite <- IH. reflexivity.
  - exists EmptyString. reflexivity.
Qed.

Lemma rstrip_prefix (s : string) : exists q, s = rstrip s ++ q.
Proof.
  unfold rstrip. destruct (lstrip_suffix (rev s)) as [p E]. exists (rev p).
  rewrite <- rev_app, <- E. symmetry. apply rev_rev.
Qed.

(** A stripped text neither starts nor ends with a whitespace character. *)
Lemma strip_first (s : string) (c : ascii) (t : string) :
  strip s = String c t -> isspace c = false.
Proof.
  unfold strip. intros H. destruct (rstrip_prefix (lstrip s)) as [q E].
  rewrite H in E. simpl in E. exact (lstrip_head _ _ _ E).
Qed.

Lemma strip_last (s t : string) (c : ascii) :
  strip s = t ++ String c EmptyString -> isspace c = false.
Proof.
  unfold strip, rstrip. intros H.
  apply (f_equal rev) in H. rewrite rev_rev, rev_app in H. simpl in H.
  exact (lstrip_head _ _ _ H).
Qed.

Lemma filter_lstrip (s : string) : filter isdecimal (lstrip s) = filter isdecimal s.
Proof.
  induction s as [|a s IH]; cbn [lstrip filter]; [reflexivity|].
  destruct (isspace a) eqn:E; [|reflexivity].
  rewrite (space_not_digit a E). exact IH.
Qed.

(** Stripping never removes a digit. *)
Lemma filter_strip (s : string) : filter isdecimal (strip s) = filter isdecimal s.
Proof.
  unfold strip, rstrip.
  rewrite filter_rev, filter_lstrip, filter_rev, rev_rev. apply filter_lstrip.
Qed.

Lemma prefix_leading (q : ascii -> bool) (old s : string) :
  forallb q old = true -> prefix old s = true -> leading q (String.length old) s = true.
Proof.
  revert s. induction old as [|c0 old IH]; intros s Hq Hp; [reflexivity|].
  destruct s as [|b s]; [reflexivity|].
  cbn [forallb] in Hq. apply andb_true_iff in Hq. destruct Hq as [Hc Ho].
  cbn [prefix] in Hp. destruct (ascii_dec c0 b) as [->|]; [|discriminate Hp].
  cbn [String.length leading]. rewrite Hc. exact (IH s Ho Hp).
Qed.

(** Deleting the occurrences of a text without digits never removes a
    digit ... *)
Lemma filter_replace_from (c0 : ascii) (old' s : string) (k : nat) :
  forallb not_digit (String c0 old') = true -> leading not_digit k s = true ->
  filter isdecimal (replace_from (String c0 old') EmptyString k s) = filter isdecimal s.
Proof.
  intros Hold. revert k. induction s as [|c s IH]; intros k Hk; [reflexivity|].
  destruct k as [|k].
  - cbn [replace_from]. destruct (prefix (String c0 old') (String c s)) eqn:P.
    + pose proof (prefix_leading not_digit _ _ Hold P) as L.
      cbn [String.length leading] in L. apply andb_true_iff in L. destruct L as [Lc Ls].
      cbn [String.length Nat.pred append filter].
      unfold not_digit in Lc. apply negb_true_iff in Lc. rewrite Lc. exact (IH _ Ls).
    + cbn [filter]. rewrite (IH O eq_refl). reflexivity.
  - cbn [replace_from filter]. cbn [leading] in Hk. apply andb_true_iff in Hk.
    destruct Hk as [Lc Ls]. unfold not_digit in Lc. apply negb_true_iff in Lc.
    rewrite Lc. exact (IH _ Ls).
Qed.

Lemma filter_replace (c0 : ascii) (old' s : string) :
  forallb not_digit (String c0 old') = true ->
  filter isdecimal (replace (String c0 old') EmptyString s) = filter isdecimal s.
Proof. intros H. unfold replace. apply filter_replace_from; [exact H | reflexivity]. Qed.

(** ... and never brings in a character that was not there. *)
Lemma forallb_replace_from (q : ascii -> bool) (old s : string) (k : nat) :
  forallb q s = true -> forallb q (replace_from old EmptyString k s) = true.
Proof.
  revert k. induction s as [|c s IH]; intros k H; [reflexivity|].
  cbn [forallb] in H. apply andb_true_iff in H. destruct H as [Hc Hs].
  destruct k as [|k]; cbn [replace_from]; [|exact (IH _ Hs)].
  destruct (prefix old (String c s)); cbn [append forallb]; [exact (IH _ Hs)|].
  rewrite Hc. exact (IH _ Hs).
Qed.

(** Deleting the blanks is filtering them out. *)
Lemma replace_blank (s : string) :
  replace " " EmptyString s = filter not_blank s.
Proof.
  unfold replace. induction s as [|c s IH]; [reflexivity|].
  cbn [replace_from prefix filter]. unfold not_blank at 1, is_blank.
  destruct (ascii_dec " " c) as [<-|N].
  - replace (prefix EmptyString s) with true by (destruct s; reflexivity).
    cbn. exact IH.
  - replace (Ascii.eqb c " ") with false
      by (symmetry; apply Ascii.eqb_neq; congruence).
    cbn. rewrite IH. reflexivity.
Qed.

Lemma forallb_existsb_blank (s : string) :
  forallb not_blank s = true -> existsb is_blank s = false.
Proof.
  induction s as [|c s IH]; cbn [forallb existsb]; [reflexivity|].
  intros H. apply andb_true_iff in H. destruct H as [Hc Hs].
  unfold not_blank in Hc. apply negb_true_iff in Hc. rewrite Hc. exact (IH Hs).
Qed.

Lemma split1_cases (s : string) :
  split1 " " s = [s]
  \/ exists a m, s = a ++ String " " m /\ split1 " " s = [a; m].
Proof.
  induction s as [|c s IH]; [left; reflexivity|].
  cbn [split1]. destruct (Ascii.eqb c " ") eqn:E.
  - right. apply Ascii.eqb_eq in E. subst c. exists EmptyString, s. split; reflexivity.
  - destruct IH as [->|(a & m & Hs & ->)].
    + left. reflexivity.
    + right. exists (String c a), m. split; [rewrite Hs at 1|]; reflexivity.
Qed.

End StringFacts.

(** ** Extraction, field by field *)

(** The record of a block, read off the nodes it was taken from. *)
Lemma extract_inv (car_div : node) (r : raw_record) :
  extract_car_details car_div = Some r ->
  exists options0 rest d0 d1 d2 d3 ds,
    find_all "div" (Some "options") car_div = options0 :: rest
    /\ sub_sections options0 = d0 :: d1 :: d2 :: d3 :: ds
    /\ Nom_Total r = text_or_NA (find "h3" (Some "lib-car") car_div) same
    /\ Prix r = text_or_NA (find "div" (Some "price") car_div)
                  (fun s => PyStr.replace "DT" "" (PyStr.replace " " "" s))
    /\ Annee r = text_or_NA (find "span" None d0) same
    /\ Kilometrage r = text_or_NA (find "span" None d1)
                         (fun s => PyStr.replace " " "" (PyStr.replace " Km" "" s))
    /\ Carburant r = text_or_NA (find "span" None d2) same
    /\ Boite r = text_or_NA (find "span" None d3) same.
Proof.
  unfold extract_car_details, sub_sections.
  destruct (find_all "div" (Some "options") car_div) as [|options0 rest];
    [discriminate|].
  destruct (find_all "div" None options0) as [|d0 [|d1 [|d2 [|d3 ds]]]] eqn:E;
    try discriminate.
  intros H. injection H as <-. exists options0, rest, d0, d1, d2, d3, ds.
  rewrite E. repeat split; reflexivity.
Qed.

(** The full name of a record has no whitespace at either end. *)
Lemma name_stripped (car_div : node) (r : raw_record) :
  extract_car_details car_div = Some r ->
  (forall c t, Nom_Total r = String c t -> PyStr.isspace c = false)
  /\ (forall t c, Nom_Total r = t ++ String c EmptyString -> PyStr.isspace c = false).
Proof.
  intros H. destruct (extract_inv _ _ H) as (o & rest & d0 & d1 & d2 & d3 & ds & _ & _ & En & _).
  rewrite En. unfold text_or_NA, same.
  destruct (find "h3" (Some "lib-car") car_div) as [e|].
  - split; [apply strip_first | apply strip_last].
  - split.
    + intros c t E. injection E as <- _. reflexivity.
    + intros t c E. destruct t as [|a [|b [|d [|x t]]]]; simpl in E;
        try discriminate E.
      injection E as _ _ <-. reflexivity.
Qed.

(** X10.  Through extraction and normalisation together, the cleaned
    price, year and mileage of a block are exactly the digits of the text
    of the price node and of the first and second labels, in the order
    they occur there: the stripping and the removal of blanks, "DT" and
    " Km" lose none and add none.  The one exception is a text that
    extraction turns into the marker itself. *)
Theorem cleaned_numbers_are_label_digits
    (y : Z) (car_div : node) (r : raw_record)
    (options0 d0 d1 d2 d3 : node) (rest ds : list node) :
  extract_car_details car_div = Some r ->
  find_all "div" (Some "options") car_div = options0 :: rest ->
  sub_sections options0 = d0 :: d1 :: d2 :: d3 :: ds ->
  (forall e, find "div" (Some "price") car_div = Some e -> Prix r <> NA ->
             c_Prix (clean_car y r) = PyStr.filter PyStr.isdecimal (text e))
  /\ (forall e, find "span" None d0 = Some e -> Annee r <> NA ->
                c_Annee (clean_car y r) = PyStr.filter PyStr.isdecimal (text e))
  /\ (forall e, find "span" None d1 = Some e -> Kilometrage r <> NA ->
                c_Kilometrage (clean_car y r) = PyStr.filter PyStr.isdecimal (text e)).
Proof.
  intros H Ho Hd.
  destruct (extract_inv _ _ H)
    as (o' & rest' & d0' & d1' & d2' & d3' & ds' & Ho' & Hd' & _ & Ep & Ey & Ek & _).
  rewrite Ho in Ho'. injection Ho' as <- <-.
  rewrite Hd in Hd'. injection Hd' as <- <- <- <- <-.
  assert (G : forall v, v <> NA -> digits_or_NA v = PyStr.filter PyStr.isdecimal v).
  { intros v Hv. destruct (digits_or_NA_cases v) as [[E _]|[_ E]];
      [contradiction | exact E]. }
  cbn [clean_car c_Prix c_Annee c_Kilometrage].
  split; [|split]; intros e He Hna.
  - rewrite (G _ Hna), Ep, He. unfold text_or_NA.
    rewrite filter_replace, filter_replace by reflexivity. apply filter_strip.
  - rewrite (G _ Hna), Ey, He. unfold text_or_NA, same. apply filter_strip.
  - rewrite (G _ Hna), Ek, He. unfold text_or_NA.
    rewrite filter_replace, filter_replace by reflexivity. apply filter_strip.
Qed.

Lemma cleaned_numbers_are_label_digits_witness :
  exists r, extract_car_details untidy_card = Some r
    /\ c_Prix (clean_car 2026 r) = "52500"
    /\ c_Annee (clean_car 2026 r) = "2019"
    /\ c_Kilometrage (clean_car 2026 r) = "45000".
Proof.
  eexists. split; [reflexivity|].
  destruct (cleaned_numbers_are_label_digits 2026 untidy_card _
              (Tag "div" ["options"]
                 (map option_div [" 2019 "; "45 000 Km"; "Essence"; "Manuelle"]))
              (option_div " 2019 ") (option_div "45 000 Km")
              (option_div "Essence") (option_div "Manuelle") [] []
              eq_refl eq_refl eq_refl) as (Hp & Hy & Hk).
  split; [|split].
  - exact (Hp (Tag "div" ["price"] [NavigableString " 52 500 DT "]) eq_refl
              ltac:(discriminate)).
  - exact (Hy (Tag "span" [] [NavigableString " 2019 "]) eq_refl ltac:(discriminate)).
  - exact (Hk (Tag "span" [] [NavigableString "45 000 Km"]) eq_refl ltac:(discriminate)).
Defined.

(** X11.  In every extracted record the model is never the empty
    string, and the brand is empty only when the full name is: the name is
    stripped, so its first blank has text on both sides. *)
Theorem name_parts_never_empty (car_div : node) (r : raw_record) :
  extract_car_details car_div = Some r ->
  Modele r <> EmptyString
  /\ (Nom_Total r <> EmptyString -> Marque r <> EmptyString).
Proof.
  intros H. destruct (extract_name_parts _ _ H) as [Hb Hm].
  destruct (name_stripped _ _ H) as [Hfirst Hlast]. split.
  - rewrite Hm. destruct (split1_cases (Nom_Total r)) as [E|(a & m & Hs & E)]; rewrite E.
    + discriminate.
    + intros ->. specialize (Hlast _ _ Hs). discriminate Hlast.
  - intros Hne. rewrite Hb. destruct (Nom_Total r) as [|c t] eqn:En; [contradiction|].
    specialize (Hfirst c t eq_refl).
    assert (Hc : Ascii.eqb c " " = false).
    { destruct (Ascii.eqb c " ") eqn:E; [|reflexivity].
      rewrite (blank_is_space c E) in Hfirst. discriminate Hfirst. }
    cbn [PyStr.split1]. rewrite Hc.
    destruct (split1_cases t) as [->|(a & m & _ & ->)]; discriminate.
Qed.

Lemma name_parts_never_empty_witness :
  exists r, extract_car_details untidy_card = Some r
    /\ Modele r <> EmptyString
    /\ (Nom_Total r <> EmptyString -> Marque r <> EmptyString).
Proof.
  eexists. split; [reflexivity|].
  apply (name_parts_never_empty untidy_card). reflexivity.
Defined.

Example extract_untidy_card :
  extract_car_details untidy_card
  = Some {| Nom_Total := "Peugeot 208 Allure"; Marque := "Peugeot"; Modele := "208 Allure";
            Carburant := "Essence"; Boite := "Manuelle"; Prix := "52500";
            Kilometrage := "45000"; Annee := "2019" |}.
Proof. reflexivity. Qed.

(** X12.  A node that is missing from a block with four sub-sections
    costs only its own fields: without the title the name, brand and model
    are the marker; without the price node the price is; without the label
    of a sub-section that sub-section's field is.  The record is produced
    all the same. *)
Theorem missing_nodes_give_markers
    (car_div options0 d0 d1 d2 d3 : node) (rest ds : list node) :
  find_all "div" (Some "options") car_div = options0 :: rest ->
  sub_sections options0 = d0 :: d1 :: d2 :: d3 :: ds ->
  exists r,
    extract_car_details car_div = Some r
    /\ (find "h3" (Some "lib-car") car_div = None ->
        Nom_Total r = NA /\ Marque r = NA /\ Modele r = NA)
    /\ (find "div" (Some "price") car_div = None -> Prix r = NA)
    /\ (find "span" None d0 = None -> Annee r = NA)
    /\ (find "span" None d1 = None -> Kilometrage r = NA)
    /\ (find "span" None d2 = None -> Carburant r = NA)
    /\ (find "span" None d3 = None -> Boite r = NA).
Proof.
  intros Ho Hd. unfold sub_sections in Hd. unfold extract_car_details.
  rewrite Ho, Hd. eexists. split; [reflexivity|].
  cbn [Nom_Total Marque Modele Prix Annee Kilometrage Carburant Boite].
  split; [intros ->; split; [|split]; reflexivity|].
  repeat (split; [intros ->; reflexivity|]). intros ->. reflexivity.
Qed.

Lemma missing_nodes_give_markers_witness :
  extract_car_details bare_card
  = Some {| Nom_Total := "N/A"; Marque := "N/A"; Modele := "N/A";
            Carburant := "N/A"; Boite := "N/A"; Prix := "N/A";
            Kilometrage := "N/A"; Annee := "N/A" |}.
Proof.
  destruct (missing_nodes_give_markers bare_card
              (Tag "div" ["options"]
                 [Tag "div" [] []; Tag "div" [] []; Tag "div" [] []; Tag "div" [] []])
              (Tag "div" [] []) (Tag "div" [] []) (Tag "div" [] []) (Tag "div" [] [])
              [] [] eq_refl eq_refl) as (r & E & _).
  rewrite E. f_equal. injection E as <-. reflexivity.
Defined.

(** X13.  The price and the mileage of an extracted record never hold a
    blank, whatever the page wrote between the digits. *)
Theorem price_and_mileage_without_blanks (car_div : node) (r : raw_record) :
  extract_car_details car_div = Some r ->
  PyStr.existsb is_blank (Prix r) = false
  /\ PyStr.existsb is_blank (Kilometrage r) = false.
Proof.
  intros H.
  destruct (extract_inv _ _ H) as (o & rest & d0 & d1 & d2 & d3 & ds & _ & _ & _ & Ep & _ & Ek & _).
  rewrite Ep, Ek. unfold text_or_NA. split.
  - destruct (find "div" (Some "price") car_div) as [e|]; [|reflexivity].
    apply forallb_existsb_blank. unfold PyStr.replace at 1.
    apply forallb_replace_from. rewrite replace_blank. apply filter_keeps.
  - destruct (find "span" None d1) as [e|]; [|reflexivity].
    apply forallb_existsb_blank. rewrite replace_blank. apply filter_keeps.
Qed.

Lemma price_and_mileage_without_blanks_witness :
  exists r, extract_car_details untidy_card = Some r
    /\ PyStr.existsb is_blank (Prix r) = false
    /\ PyStr.existsb is_blank (Kilometrage r) = false.
Proof.
  eexists. split; [reflexivity|].
  apply (price_and_mileage_without_blanks untidy_card). reflexivity.
Defined.

(** ** From the pages to the file *)





